(** * Arithmetic sequence generator: a shallow embedding of [app.py]

    The program has one function, [generate_arithmetic_sequence], and a
    page script [main] that calls it and derives a few displayed values
    from the result (formatted terms, sum, average, range, trend, and a
    text export).  This development embeds those computations and proves
    the properties stated for them.

    Numbers.  The function body only uses [+] and [*] and the conversion of
    the loop index; it is embedded over an arbitrary number type carrying
    these operations (class [Number]), so that what is proved about it does
    not depend on how the arithmetic rounds.  Two instances are used: the
    exact rationals [Q], for statements about sums, averages and ordering
    in exact arithmetic, and the binary64 numbers of the IEEE 754
    specification ([SpecFloat]), which are the floats the program runs on.
    The display of a number is defined on its value, a rational or one of
    the special values of binary64. *)

From Stdlib Require Import ZArith QArith Qround Qabs Lia String Ascii.
From Stdlib Require Import DecimalString DecimalPos DecimalZ Lqa SpecFloat.
From stdpp Require Import base list gmap.

Local Open Scope Z_scope.

(** ** Numbers *)

(** The operations [generate_arithmetic_sequence] needs from its numeric
    arguments: [first_term + (n * common_difference)] with [n] an [int]. *)
Class Number (num : Type) := {
  add : num -> num -> num;
  mul : num -> num -> num;
  of_int : Z -> num
}.

(** Exact arithmetic.  (The floats of the program are [Number_binary64]
    below; Python ints are [Number_Z].) *)
#[export] Instance Number_Q : Number Q :=
  {| add := Qplus; mul := Qmult; of_int := inject_Z |}.

#[export] Instance Number_Z : Number Z :=
  {| add := Z.add; mul := Z.mul; of_int := fun n => n |}.

(** ** Exceptions *)

(** The built-in exceptions the modelled expressions can raise. *)
Inductive exn : Type :=
| IndexError
| ZeroDivisionError
| ValueError
| OverflowError.

Inductive outcome (A : Type) : Type :=
| Returns (v : A)
| Raises (e : exn).

Arguments Returns {A} v.
Arguments Raises {A} e.

Definition obind {A B} (c : outcome A) (k : A -> outcome B) : outcome B :=
  match c with
  | Returns v => k v
  | Raises e => Raises e
  end.

(** ** [range] *)

(** [range(num_terms)]: the integers [0, 1, ..., num_terms - 1]; empty when
    [num_terms <= 0]. *)
Definition range (stop : Z) : list Z := seqZ 0 stop.

(** [enumerate(items)]: each item paired with its position, from 0. *)
Definition enumerate {A} (items : list A) : list (Z * A) :=
  zip (range (Z.of_nat (List.length items))) items.

(** [items[start:stop]] for [0 <= start] and [0 <= stop]. *)
Definition slice {A} (items : list A) (start stop : Z) : list A :=
  take (Z.to_nat (stop - start)) (drop (Z.to_nat start) items).

(** ** [generate_arithmetic_sequence] as a function on values *)

Section Generate.
Context {num : Type} `{Number num}.

(** One iteration of the loop body: compute [term], append it. *)
Definition loop_body (first_term common_difference : num)
    (sequence : list num) (n : Z) : list num :=
  let term := add first_term (mul (of_int n) common_difference) in
  sequence ++ [term].

Definition generate_arithmetic_sequence
    (first_term common_difference : num) (num_terms : Z) : list num :=
  foldl (loop_body first_term common_difference) [] (range num_terms).

(** The [i]-th term in closed form. *)
Definition nth_term (first_term common_difference : num) (i : Z) : num :=
  add first_term (mul (of_int i) common_difference).

End Generate.

(** [sequence[-1]], shown as "Last Term". *)
Definition last_term {num} (sequence : list num) : outcome num :=
  match last sequence with
  | Some term => Returns term
  | None => Raises IndexError
  end.

(** ** [generate_arithmetic_sequence] on the heap

    The same function with the list it builds as a mutable object: the
    heap maps references to list objects, [sequence = []] allocates a new
    object, [sequence.append(term)] updates it in place, and the function
    returns the reference. *)
Module Heap.

Definition loc := positive.

(** The list objects alive, by reference. *)
Abbreviation heap num := (gmap loc (list num)).

Section WithNum.
Context {num : Type} `{Number num}.

(** Computations that read and write the heap and may raise. *)
Definition M (A : Type) : Type := heap num -> outcome (A * heap num).

Definition ret {A} (v : A) : M A := fun h => Returns (v, h).

Definition bind {A B} (c : M A) (k : A -> M B) : M B :=
  fun h => match c h with
           | Returns (v, h') => k v h'
           | Raises e => Raises e
           end.

(** [[]]: a new, empty list object. *)
Definition new_list : M loc :=
  fun h => let l := fresh (dom h) in Returns (l, <[l := []]> h).

(** [sequence.append(term)]: the object behind the reference grows by
    one item, in place. *)
Definition list_append (sequence : loc) (term : num) : M unit :=
  fun h => Returns (tt, alter (fun items => items ++ [term]) sequence h).

(** [for n in items: body n] *)
Fixpoint for_each (items : list Z) (body : Z -> M unit) : M unit :=
  match items with
  | [] => ret tt
  | n :: rest => bind (body n) (fun _ => for_each rest body)
  end.

Definition generate_arithmetic_sequence
    (first_term common_difference : num) (num_terms : Z) : M loc :=
  bind new_list (fun sequence =>
  bind (for_each (range num_terms) (fun n =>
          let term := add first_term (mul (of_int n) common_difference) in
          list_append sequence term)) (fun _ =>
  ret sequence)).

End WithNum.
End Heap.

(** ** Values derived in [main]: terms are exact rationals

    This part takes a number as the rational it is worth.  For the
    display ([int()], [!=], [.2f]) that is what the program does with any
    finite float; for the sums, quotients and comparisons it describes the
    page in exact arithmetic.  The program over its own arithmetic, with
    rounding, overflow and the special values, follows in [Program]. *)

Local Open Scope string_scope.

(** [str(n)] for an [int]. *)
Definition str_int (n : Z) : string := NilZero.string_of_int (Z.to_int n).

(** [int(term)]: truncation toward zero. *)
Definition py_int (term : Q) : Z := Z.quot (Qnum term) (Z.pos (Qden term)).

(** Rounding of a non-negative value to the nearest integer, ties to the
    even neighbour: the rounding of the [f] presentation type. *)
Definition round_half_even (q : Q) : Z :=
  let lo := Qfloor q in
  match (q - inject_Z lo ?= 1 # 2)%Q with
  | Lt => lo
  | Eq => if Z.even lo then lo else lo + 1
  | Gt => lo + 1
  end.

Definition digit (n : Z) : ascii := ascii_of_nat (48 + Z.to_nat n).

(** [f"{x:.2f}"]: sign, integer digits, a point, two decimals. *)
Definition format_2f (x : Q) : string :=
  let scaled := round_half_even (Qabs x * 100) in
  let sign := match (x ?= 0)%Q with Lt => "-" | _ => "" end in
  sign ++ str_int (scaled / 100) ++ "."
       ++ String (digit (scaled / 10 mod 10)) (String (digit (scaled mod 10)) "").

(** [term != int(term)] *)
Definition differs_from_int (term : Q) : bool :=
  negb (Qeq_bool term (inject_Z (py_int term))).

(** The entry of one term in the short display (at most 20 terms):
    [f"{term:.2f}" if term != int(term) else str(int(term))]. *)
Definition sequence_str_item (term : Q) : string :=
  if differs_from_int term then format_2f term else str_int (py_int term).

(** [", ".join([... for term in sequence])] *)
Definition sequence_str (sequence : list Q) : string :=
  String.concat ", " (map sequence_str_item sequence).

(** The value shown in the cell of one term in the table display (more than
    20 terms). *)
Definition formatted_term (term : Q) : string :=
  if differs_from_int term then format_2f term else str_int (py_int term).

(** The table display: rows of at most 10 cells, each cell the 1-based
    position of a term and its formatted value.  [rows_needed] is
    [math.ceil(num_terms / cols_per_row)]. *)
Definition table (num_terms : Z) (sequence : list Q)
    : list (list (Z * string)) :=
  let cols_per_row := 10%Z in
  let rows_needed := (- ((- num_terms) / cols_per_row))%Z in
  map (fun row =>
         let start_idx := (row * cols_per_row)%Z in
         let end_idx := Z.min (start_idx + cols_per_row) num_terms in
         let row_data := slice sequence start_idx end_idx in
         map (fun '(i, term) =>
                let term_num := (start_idx + i + 1)%Z in
                (term_num, formatted_term term))
             (enumerate row_data))
      (range rows_needed).

(** What is shown under "Generated Sequence": one line of text for at most
    20 terms, the table otherwise. *)
Inductive display : Type :=
| Code (sequence_str : string)
| Metrics (cells : list (list (Z * string))).

Definition generated_sequence_display (num_terms : Z) (sequence : list Q)
    : display :=
  if (num_terms <=? 20)%Z then Code (sequence_str sequence)
  else Metrics (table num_terms sequence).

(** Characters of a rendered number. *)
Definition is_digit (c : ascii) : bool :=
  let n := nat_of_ascii c in (48 <=? n)%nat && (n <=? 57)%nat.

Fixpoint has_char (c : ascii) (s : string) : bool :=
  match s with
  | EmptyString => false
  | String c' rest => Ascii.eqb c c' || has_char c rest
  end.


(** [sum(sequence)]: starts from [0] and adds the items from the left. *)
Definition py_sum (sequence : list Q) : Q := foldl Qplus 0%Q sequence.

(** [x / n] with [n] an [int]. *)
Definition py_div (x : Q) (n : Z) : outcome Q :=
  if (n =? 0)%Z then Raises ZeroDivisionError else Returns (x / inject_Z n)%Q.

(** [min(sequence)]: the first item, replaced by each later item that is
    strictly smaller. *)
Definition py_min (sequence : list Q) : outcome Q :=
  match sequence with
  | [] => Raises ValueError
  | x :: rest =>
      Returns (foldl (fun m y => if Qlt_le_dec y m then y else m) x rest)
  end.

(** [max(sequence)]: the first item, replaced by each later item that is
    strictly greater. *)
Definition py_max (sequence : list Q) : outcome Q :=
  match sequence with
  | [] => Raises ValueError
  | x :: rest =>
      Returns (foldl (fun m y => if Qlt_le_dec m y then y else m) x rest)
  end.

(** ['Yes' if common_difference > 0 else 'No' if common_difference < 0
    else 'Constant'] *)
Definition is_increasing (common_difference : Q) : string :=
  if Qlt_le_dec 0 common_difference then "Yes"
  else if Qlt_le_dec common_difference 0 then "No"
  else "Constant".

(** The values interpolated under "Sequence Properties". *)
Record properties : Type := {
  sequence_sum : Q;
  average : Q;
  range_min : Q;
  range_max : Q;
  increasing_label : string
}.

Definition sequence_properties (common_difference : Q) (num_terms : Z)
    (sequence : list Q) : outcome properties :=
  let total := py_sum sequence in
  obind (py_div total num_terms) (fun avg =>
  obind (py_min sequence) (fun lo =>
  obind (py_max sequence) (fun hi =>
  Returns {| sequence_sum := total; average := avg;
             range_min := lo; range_max := hi;
             increasing_label := is_increasing common_difference |}))).

(** The five fields as printed: the four numbers with [:.2f]. *)
Definition properties_text (p : properties) : list string :=
  [format_2f (sequence_sum p); format_2f (average p);
   format_2f (range_min p) ++ " to " ++ format_2f (range_max p);
   increasing_label p].

(** The trend a label of the "Is increasing" line stands for. *)
Inductive Trend : Type := Increasing | Decreasing | Constant.

Definition trend_of_label (label : string) : option Trend :=
  if String.eqb label "Yes" then Some Increasing
  else if String.eqb label "No" then Some Decreasing
  else if String.eqb label "Constant" then Some Constant
  else None.

(** ** Text export *)

(** The line feed character, and ["\n"]. *)
Definition line_feed : ascii := ascii_of_nat 10.

Definition newline : string := String line_feed "".

Section TextExport.
Context {num : Type}.
(** [str(term)], the plain rendering a replacement field without a format
    specification uses. *)
Variable str_term : num -> string.

(** [f"Term {i+1}: {term}"] *)
Definition export_line (i : Z) (term : num) : string :=
  "Term " ++ str_int (i + 1) ++ ": " ++ str_term term.

Definition export_lines (sequence : list num) : list string :=
  map (fun '(i, term) => export_line i term) (enumerate sequence).

(** ["\n".join([...])] *)
Definition sequence_text (sequence : list num) : string :=
  String.concat newline (export_lines sequence).

(** The download is offered only for more than 10 terms. *)
Definition download_data (num_terms : Z) (sequence : list num)
    : option string :=
  if (10 <? num_terms)%Z then Some (sequence_text sequence) else None.

End TextExport.



(** ** The program over its own arithmetic

    The definitions above this point that work on [Q] describe the page
    in exact arithmetic.  The program itself computes with binary64
    floating-point numbers: sums and quotients are rounded, a result can
    overflow to an infinity, and [int()] of an infinity or a NaN raises.
    What the display and the comparisons do with a number depends on its
    value only, so the program is written once more here over any number
    type that also has a division, a comparison and a [value]; the exact
    rationals and the binary64 numbers are two instances. *)

(** What a number is worth: a finite rational (the negative zero apart), or
    one of the special values of floating-point arithmetic. *)
Inductive value : Type :=
| Finite (q : Q)
| NegZero
| PosInf
| NegInf
| NaN.

Class Arithmetic (num : Type) `{Number num} := {
  divide : num -> num -> num;
  less : num -> num -> bool;
  value_of : num -> value
}.

#[export] Instance Arithmetic_Q : Arithmetic Q :=
  {| divide := Qdiv;
     less := fun x y => if Qlt_le_dec x y then true else false;
     value_of := Finite |}.

(** Binary64: 53 bits of precision, exponents below 1024, with the
    operations of the IEEE 754 specification in [SpecFloat] (round to
    nearest, ties to even). *)
Module Binary64.

Definition prec : Z := 53.
Definition emax : Z := 1024.

(** [float(n)] for an [int]: the nearest binary64 number.  (Python
    raises for an [int] beyond the range of floats, where this gives an
    infinity; no index or length of a list is that large.) *)
Definition of_Z (n : Z) : spec_float := binary_normalize prec emax n 0 false.

(** [m * 2 ** e] as a rational. *)
Definition dyadic (m e : Z) : Q :=
  if (0 <=? e)%Z then inject_Z (m * 2 ^ e)
  else m # (2 ^ Z.to_pos (- e))%positive.

Definition value (x : spec_float) : value :=
  match x with
  | S754_zero s => if s then NegZero else Finite 0
  | S754_infinity s => if s then NegInf else PosInf
  | S754_nan => NaN
  | S754_finite s m e =>
      Finite (dyadic (if s then Z.neg m else Z.pos m) e)
  end.

(** The number a decimal literal [p / q] denotes, for whole numbers [p]
    and [q] below [2 ** 53]: the binary64 number nearest to the
    quotient. *)
Definition literal (p q : Z) : spec_float :=
  SFdiv prec emax (of_Z p) (of_Z q).

(** *** [str] of a float: the shortest decimal that reads back as it *)

Definition pow10 (k : Z) : Q :=
  if (0 <=? k)%Z then inject_Z (10 ^ k) else 1 # (10 ^ Z.to_pos (- k))%positive.

(** The decimal numbers that read as the float [m * 2 ** e] are those
    between the midpoints to its two neighbours; the midpoints themselves
    read as it when [m] is even.  The neighbour below is half as far when
    [m] is the least mantissa of a binade. *)
Definition reads_as (m : positive) (e : Z) (c : Q) : bool :=
  let v := dyadic (Z.pos m) e in
  let emin := (3 - emax - prec)%Z in
  let below :=
    if ((Z.pos m =? 2 ^ (prec - 1)) && (emin <? e))%Z
    then dyadic 1 (e - 2) else dyadic 1 (e - 1) in
  let above := dyadic 1 (e - 1) in
  match (v - below ?= c)%Q, (c ?= v + above)%Q with
  | Gt, _ | _, Gt => false
  | Lt, Lt => true
  | _, _ => Z.even (Z.pos m)
  end.

(** [p] with [10 ** (p - 1) <= v < 10 ** p], for [v > 0]. *)
Definition decimal_point (v : Q) : Z :=
  let b := (Z.log2 (Qnum v) - Z.log2 (Z.pos (Qden v)))%Z in
  let p0 := (b * 30103 / 100000)%Z in
  let up := fix up (fuel : nat) (p : Z) : Z :=
    match fuel with
    | O => p
    | S fuel => if Qle_bool (pow10 p) v then up fuel (p + 1)%Z else p
    end in
  let down := fix down (fuel : nat) (p : Z) : Z :=
    match fuel with
    | O => p
    | S fuel =>
        if Qle_bool (pow10 (p - 1)) v then p else down fuel (p - 1)%Z
    end in
  down 4%nat (up 4%nat p0).

(** The best decimal of [k] significant digits, if one reads as the
    float: its digits as a whole number and its power of ten. *)
Definition with_digits (m : positive) (e : Z) (k : Z) : option (Z * Z) :=
  let v := dyadic (Z.pos m) e in
  let p := decimal_point v in
  let scale := pow10 (p - k) in
  let t := (v / scale)%Q in
  let lo := Qfloor t in
  let hi := (lo + 1)%Z in
  let lo_ok := reads_as m e (inject_Z lo * scale) in
  let hi_ok := reads_as m e (inject_Z hi * scale) in
  match lo_ok, hi_ok with
  | true, true =>
      match (t - inject_Z lo ?= inject_Z hi - t)%Q with
      | Gt => Some (hi, (p - k)%Z)
      | _ => Some (lo, (p - k)%Z)
      end
  | true, false => Some (lo, (p - k)%Z)
  | false, true => Some (hi, (p - k)%Z)
  | false, false => None
  end.

Fixpoint shortest (m : positive) (e : Z) (k : Z) (fuel : nat)
    : Z * Z :=
  match fuel with
  | O => (Z.pos m, 0%Z)
  | S fuel =>
      match with_digits m e k with
      | Some found => found
      | None => shortest m e (k + 1) fuel
      end
  end.

Fixpoint strip_zeros (fuel : nat) (c k : Z) : Z * Z :=
  match fuel with
  | O => (c, k)
  | S fuel =>
      if (c mod 10 =? 0)%Z then strip_zeros fuel (c / 10)%Z (k + 1)%Z
      else (c, k)
  end.

Fixpoint zeros (n : nat) : string :=
  match n with
  | O => ""
  | S n => String "0" (zeros n)
  end.

(** The digits [ds] with the point after the first [decpt] of them, in
    the layout of [repr]: exponent form when [decpt] is above 16 or below
    -3, a trailing [.0] on a whole number. *)
Definition layout (ds : string) (decpt : Z) : string :=
  let len := Z.of_nat (String.length ds) in
  if ((decpt <=? -4) || (16 <? decpt))%Z then
    let exponent := (decpt - 1)%Z in
    let digits := str_int (Z.abs exponent) in
    substring 0 1 ds
    ++ (if (1 <? len)%Z
        then "." ++ substring 1 (String.length ds - 1) ds else "")
    ++ "e" ++ (if (exponent <? 0)%Z then "-" else "+")
    ++ (if (Z.abs exponent <? 10)%Z then "0" else "") ++ digits
  else if (decpt <=? 0)%Z then
    "0." ++ zeros (Z.to_nat (- decpt)) ++ ds
  else if (len <=? decpt)%Z then
    ds ++ zeros (Z.to_nat (decpt - len)) ++ ".0"
  else
    substring 0 (Z.to_nat decpt) ds ++ "."
    ++ substring (Z.to_nat decpt) (String.length ds - Z.to_nat decpt) ds.

(** [str(x)] for a float [x], as in [f"{x}"]. *)
Definition str (x : spec_float) : string :=
  match x with
  | S754_zero s => if s then "-0.0" else "0.0"
  | S754_infinity s => if s then "-inf" else "inf"
  | S754_nan => "nan"
  | S754_finite s m e =>
      let '(c, k) := shortest m e 1 17 in
      let '(c, k) := strip_zeros 17 c k in
      let ds := str_int c in
      (if s then "-" else "")
      ++ layout ds (Z.of_nat (String.length ds) + k)
  end.

End Binary64.

#[export] Instance Number_binary64 : Number spec_float :=
  {| add := SFadd Binary64.prec Binary64.emax;
     mul := SFmul Binary64.prec Binary64.emax;
     of_int := Binary64.of_Z |}.

#[export] Instance Arithmetic_binary64 : Arithmetic spec_float :=
  {| divide := SFdiv Binary64.prec Binary64.emax;
     less := SFltb;
     value_of := Binary64.value |}.

(** Whether a value is a number [int()] accepts, and the rational it is
    then worth. *)
Definition finite (v : value) : bool :=
  match v with
  | Finite _ | NegZero => true
  | PosInf | NegInf | NaN => false
  end.

Definition rational (v : value) : Q :=
  match v with
  | Finite q => q
  | _ => 0
  end.

(** The rational a term is displayed by, when it is finite. *)
Definition worth {num} `{Arithmetic num} (term : num) : Q :=
  rational (value_of term).

(** [f"{term:.2f}" if term != int(term) else str(int(term))] by the value
    of [term]: [int()] of an infinity raises [OverflowError], of a NaN
    [ValueError]; the negative zero equals [int(term) = 0]. *)
Definition value_formatted_term (v : value) : outcome string :=
  match v with
  | Finite q => Returns (formatted_term q)
  | NegZero => Returns (str_int 0)
  | PosInf | NegInf => Raises OverflowError
  | NaN => Raises ValueError
  end.

(** [f"{x:.2f}"] by the value of [x]. *)
Definition value_format_2f (v : value) : string :=
  match v with
  | Finite q => format_2f q
  | NegZero => "-0.00"
  | PosInf => "inf"
  | NegInf => "-inf"
  | NaN => "nan"
  end.

(** [[f(x) for x in items]]: the first [f(x)] that raises ends the
    comprehension. *)
Fixpoint comprehension {A B} (f : A -> outcome B) (items : list A)
    : outcome (list B) :=
  match items with
  | [] => Returns []
  | x :: rest =>
      obind (f x) (fun y =>
      obind (comprehension f rest) (fun ys => Returns (y :: ys)))
  end.

Module Program.

Record properties (num : Type) : Type := {
  sequence_sum : num;
  average : num;
  range_min : num;
  range_max : num;
  increasing_label : string
}.
Arguments sequence_sum {num} _.
Arguments average {num} _.
Arguments range_min {num} _.
Arguments range_max {num} _.
Arguments increasing_label {num} _.

Record results (num : Type) : Type := {
  last_term_metric : num;
  generated_sequence : display;
  sequence_properties_shown : list string;
  download : option string
}.
Arguments last_term_metric {num} _.
Arguments generated_sequence {num} _.
Arguments sequence_properties_shown {num} _.
Arguments download {num} _.

(** [try: ... except Exception as e: st.error(...)]: the page shows either
    the results or the error message. *)
Inductive page (num : Type) : Type :=
| ResultsShown (r : results num)
| ErrorShown (e : exn).
Arguments ResultsShown {num} r.
Arguments ErrorShown {num} e.

Section WithArithmetic.
Context {num : Type} `{Arithmetic num}.

Definition formatted_term (term : num) : outcome string :=
  value_formatted_term (value_of term).

(** [", ".join([... for term in sequence])] *)
Definition sequence_str (sequence : list num) : outcome string :=
  obind (comprehension formatted_term sequence) (fun items =>
  Returns (String.concat ", " items)).

(** The table: row after row, cell after cell. *)
Definition table (num_terms : Z) (sequence : list num)
    : outcome (list (list (Z * string))) :=
  let cols_per_row := 10%Z in
  let rows_needed := (- ((- num_terms) / cols_per_row))%Z in
  comprehension
    (fun row =>
       let start_idx := (row * cols_per_row)%Z in
       let end_idx := Z.min (start_idx + cols_per_row) num_terms in
       let row_data := slice sequence start_idx end_idx in
       comprehension
         (fun '(i, term) =>
            let term_num := (start_idx + i + 1)%Z in
            obind (formatted_term term) (fun formatted =>
            Returns (term_num, formatted)))
         (enumerate row_data))
    (range rows_needed).

Definition generated_sequence_display (num_terms : Z) (sequence : list num)
    : outcome display :=
  if (num_terms <=? 20)%Z
  then obind (sequence_str sequence) (fun s => Returns (Code s))
  else obind (table num_terms sequence) (fun cells => Returns (Metrics cells)).

(** [sum(sequence)]: from the int [0], adding the items from the left,
    each addition rounded as the arithmetic does. *)
Definition py_sum (sequence : list num) : num :=
  foldl add (of_int 0) sequence.

(** [x / n] with [n] an [int]. *)
Definition py_div (x : num) (n : Z) : outcome num :=
  if (n =? 0)%Z then Raises ZeroDivisionError
  else Returns (divide x (of_int n)).

Definition py_min (sequence : list num) : outcome num :=
  match sequence with
  | [] => Raises ValueError
  | x :: rest => Returns (foldl (fun m y => if less y m then y else m) x rest)
  end.

Definition py_max (sequence : list num) : outcome num :=
  match sequence with
  | [] => Raises ValueError
  | x :: rest => Returns (foldl (fun m y => if less m y then y else m) x rest)
  end.

Definition is_increasing (common_difference : num) : string :=
  if less (of_int 0) common_difference then "Yes"
  else if less common_difference (of_int 0) then "No"
  else "Constant".

Definition sequence_properties (common_difference : num) (num_terms : Z)
    (sequence : list num) : outcome (properties num) :=
  let total := py_sum sequence in
  obind (py_div total num_terms) (fun avg =>
  obind (py_min sequence) (fun lo =>
  obind (py_max sequence) (fun hi =>
  Returns {| sequence_sum := total; average := avg;
             range_min := lo; range_max := hi;
             increasing_label := is_increasing common_difference |}))).

(** The four lines as printed: the numbers with [:.2f]. *)
Definition properties_text (p : properties num) : list string :=
  [value_format_2f (value_of (sequence_sum p));
   value_format_2f (value_of (average p));
   value_format_2f (value_of (range_min p)) ++ " to "
     ++ value_format_2f (value_of (range_max p));
   increasing_label p].

(** The body of the [try] block of [main], in the order it runs: the
    sequence, the "Last Term" metric [sequence[-1]], the display of the
    terms, the sequence properties, and the download.  The first step that
    raises ends the block. *)
Definition generate_results (str_term : num -> string)
    (first_term common_difference : num) (num_terms : Z)
    : outcome (results num) :=
  let sequence :=
    generate_arithmetic_sequence first_term common_difference num_terms in
  obind (last_term sequence) (fun last_shown =>
  obind (generated_sequence_display num_terms sequence) (fun shown =>
  obind (sequence_properties common_difference num_terms sequence) (fun p =>
  Returns {| last_term_metric := last_shown;
             generated_sequence := shown;
             sequence_properties_shown := properties_text p;
             download := download_data str_term num_terms sequence |}))).

Definition on_generate (str_term : num -> string)
    (first_term common_difference : num) (num_terms : Z) : page num :=
  match generate_results str_term first_term common_difference num_terms with
  | Returns r => ResultsShown r
  | Raises e => ErrorShown e
  end.

End WithArithmetic.
End Program.

(** Two calls of [generate_arithmetic_sequence] in a row, keeping both
    results. *)
Definition generate_twice {num} `{Number num}
    (first_term common_difference : num) (num_terms : Z)
    (first_term' common_difference' : num) (num_terms' : Z)
    : Heap.M (Heap.loc * Heap.loc) :=
  Heap.bind
    (Heap.generate_arithmetic_sequence first_term common_difference num_terms)
    (fun sequence =>
  Heap.bind
    (Heap.generate_arithmetic_sequence
       first_term' common_difference' num_terms')
    (fun sequence' =>
  Heap.ret (sequence, sequence'))).

(** Every pair of neighbours of a list is related by [R]. *)
Definition neighbours (R : Q -> Q -> Prop) (items : list Q) : Prop :=
  forall (i : nat) (x y : Q),
    items !! i = Some x -> items !! S i = Some y -> R x y.

Local Close Scope string_scope.

(** * Properties *)

(** ** The generated list *)

Section GenerateFacts.
Context {num : Type} `{Number num}.
Implicit Types (first_term common_difference : num) (num_terms : Z).

Lemma loop_from first_term common_difference (items : list Z) :
  forall sequence : list num,
    foldl (loop_body first_term common_difference) sequence items
    = sequence ++ map (nth_term first_term common_difference) items.
Proof.
  induction items as [|n items IH]; intros sequence; simpl.
  - by rewrite app_nil_r.
  - rewrite IH. unfold loop_body, nth_term. by rewrite <- app_assoc.
Qed.

Lemma generate_as_map first_term common_difference num_terms :
  generate_arithmetic_sequence first_term common_difference num_terms
  = map (nth_term first_term common_difference) (range num_terms).
Proof. unfold generate_arithmetic_sequence. by rewrite loop_from. Qed.

Lemma generate_length first_term common_difference num_terms :
  List.length
    (generate_arithmetic_sequence first_term common_difference num_terms)
  = Z.to_nat num_terms.
Proof.
  rewrite generate_as_map, length_map. unfold range. apply length_seqZ.
Qed.

Lemma generate_lookup first_term common_difference num_terms (i : nat) :
  Z.of_nat i < num_terms ->
  generate_arithmetic_sequence first_term common_difference num_terms !! i
  = Some (nth_term first_term common_difference (Z.of_nat i)).
Proof.
  intros Hi. rewrite generate_as_map.
  change (map ?f ?l) with (f <$> l). rewrite list_lookup_fmap.
  unfold range. rewrite (lookup_seqZ_lt 0 num_terms i Hi). reflexivity.
Qed.

Lemma generate_lookup_ge first_term common_difference num_terms (i : nat) :
  num_terms <= Z.of_nat i ->
  generate_arithmetic_sequence first_term common_difference num_terms !! i
  = None.
Proof.
  intros Hi. apply lookup_ge_None. rewrite generate_length. lia.
Qed.

Lemma generate_nonpositive first_term common_difference num_terms :
  num_terms <= 0 ->
  generate_arithmetic_sequence first_term common_difference num_terms = [].
Proof.
  intros Hn. apply length_zero_iff_nil. rewrite generate_length. lia.
Qed.

(** *** The heap version computes the same list, in a new object *)

Lemma alter_present (h : Heap.heap num) l items f :
  h !! l = Some items -> alter f l h = <[l := f items]> h.
Proof.
  intros Hl. apply map_eq. intros l'.
  rewrite lookup_alter, lookup_insert.
  destruct (decide (l = l')) as [->|]; [by rewrite Hl | done].
Qed.

Lemma for_each_append (term_of : Z -> num) l (items : list Z) :
  forall (h : Heap.heap num) (sequence : list num),
    h !! l = Some sequence ->
    Heap.for_each items (fun n => Heap.list_append l (term_of n)) h
    = Returns (tt, <[l := sequence ++ map term_of items]> h).
Proof.
  induction items as [|n items IH]; intros h sequence Hl; simpl.
  - unfold Heap.ret. rewrite app_nil_r. by rewrite insert_id.
  - unfold Heap.bind, Heap.list_append at 1.
    rewrite (alter_present h l sequence _ Hl).
    rewrite (IH _ (sequence ++ [term_of n])) by apply lookup_insert_eq.
    by rewrite insert_insert_eq, <- app_assoc.
Qed.

Lemma heap_generate first_term common_difference num_terms
    (h : Heap.heap num) :
  Heap.generate_arithmetic_sequence first_term common_difference num_terms h
  = Returns (fresh (dom h),
             <[fresh (dom h) :=
                 generate_arithmetic_sequence
                   first_term common_difference num_terms]> h).
Proof.
  unfold Heap.generate_arithmetic_sequence, Heap.bind at 1, Heap.new_list.
  cbv zeta. unfold Heap.bind.
  rewrite (for_each_append
             (fun n => add first_term (mul (of_int n) common_difference))
             (fresh (dom h)) (range num_terms) _ [])
    by apply lookup_insert_eq.
  unfold Heap.ret. rewrite insert_insert_eq, generate_as_map. reflexivity.
Qed.

Lemma fresh_unused (h : Heap.heap num) :
  h !! fresh (dom h) = None.
Proof. apply not_elem_of_dom. apply is_fresh. Qed.

End GenerateFacts.

Lemma last_term_generate {num} `{Number num}
    (first_term common_difference : num) (num_terms : Z) :
  1 <= num_terms ->
  last_term
    (generate_arithmetic_sequence first_term common_difference num_terms)
  = Returns (nth_term first_term common_difference (num_terms - 1)).
Proof.
  intros Hn. unfold last_term.
  rewrite last_lookup, generate_length.
  rewrite generate_lookup by lia.
  do 3 f_equal. lia.
Qed.

(** Sample runs. *)

Example counting_numbers :
  generate_arithmetic_sequence 1%Q 1%Q 10
  = [1; 2; 3; 4; 5; 6; 7; 8; 9; 10]%Q.
Proof. reflexivity. Qed.

Example even_numbers :
  generate_arithmetic_sequence 2%Q 2%Q 10
  = [2; 4; 6; 8; 10; 12; 14; 16; 18; 20]%Q.
Proof. reflexivity. Qed.

Example decreasing_last_term :
  last_term (generate_arithmetic_sequence 100%Q (-7 # 1)%Q 15)
  = Returns 2%Q.
Proof. reflexivity. Qed.

Example constant_sequence :
  generate_arithmetic_sequence 5%Q 0%Q 5 = [5; 5; 5; 5; 5]%Q.
Proof. reflexivity. Qed.

Example no_terms_no_last_term :
  last_term (generate_arithmetic_sequence 0%Q 0%Q 0) = Raises IndexError.
Proof. reflexivity. Qed.

Example quarter_steps_display :
  sequence_str (generate_arithmetic_sequence 1%Q (1 # 4)%Q 6)
  = "1, 1.25, 1.50, 1.75, 2, 2.25"%string.
Proof. reflexivity. Qed.

Example counting_numbers_properties :
  obind (sequence_properties 1%Q 10 (generate_arithmetic_sequence 1%Q 1%Q 10))
        (fun p => Returns (properties_text p))
  = Returns ["55.00"; "5.50"; "1.00 to 10.00"; "Yes"]%string.
Proof. reflexivity. Qed.

Example format_2f_samples :
  map format_2f [1 # 8; 3 # 8; -21 # 4; -1 # 1000; 1234567 # 1000]%Q
  = ["0.12"; "0.38"; "-5.25"; "-0.00"; "1234.57"]%string.
Proof. reflexivity. Qed.

(** ** Claims about [generate_arithmetic_sequence] *)

(** C1.  For a term count between 1 and 1000, the element at each 0-based
    index [i] below the term count of the returned list is
    [first_term + i * common_difference]. *)
Theorem generate_element {num} `{Number num}
    (first_term common_difference : num) (term_count : Z) (i : nat) :
  1 <= term_count <= 1000 ->
  Z.of_nat i < term_count ->
  generate_arithmetic_sequence first_term common_difference term_count !! i
  = Some (add first_term (mul (of_int (Z.of_nat i)) common_difference)).
Proof. intros _ Hi. by apply generate_lookup. Qed.

Lemma generate_element_witness :
  (1 <= 15 <= 1000) /\ (Z.of_nat 14 < 15) /\
  generate_arithmetic_sequence 100%Q (-7 # 1)%Q 15 !! 14%nat
  = Some (100 + inject_Z 14 * (-7 # 1))%Q.
Proof.
  split; [lia|]. split; [lia|].
  exact (generate_element 100%Q (-7 # 1)%Q 15 14
           ltac:(lia) ltac:(lia)).
Defined.

(** C2.  For a term count of at least 1 the returned list has exactly
    that many elements. *)
Theorem generate_count {num} `{Number num}
    (first_term common_difference : num) (term_count : Z) :
  1 <= term_count ->
  Z.of_nat
    (List.length
       (generate_arithmetic_sequence first_term common_difference term_count))
  = term_count.
Proof. intros Hn. rewrite generate_length. lia. Qed.

Lemma generate_count_witness :
  1 <= 10 /\
  Z.of_nat (List.length (generate_arithmetic_sequence 2%Q 2%Q 10)) = 10.
Proof. split; [lia|]. apply (generate_count 2%Q 2%Q 10). lia. Defined.

(** C3, as stated, fails: a term count of 0 is outside [1, 1000], and
    the call with it raises nothing; it returns the empty list (in a new
    object, from the empty heap). *)
Lemma generate_out_of_range_returns :
  (0 < 1 \/ 1000 < 0)
  /\ generate_arithmetic_sequence 0%Q 0%Q 0 = []
  /\ Heap.generate_arithmetic_sequence 0%Q 0%Q 0 (∅ : Heap.heap Q)
     = Returns (1%positive, {[1%positive := []]})
  /\ ~ (exists e,
          Heap.generate_arithmetic_sequence 0%Q 0%Q 0 (∅ : Heap.heap Q)
          = Raises e).
Proof.
  split; [left; lia|]. split; [reflexivity|].
  assert (Hrun : Heap.generate_arithmetic_sequence 0%Q 0%Q 0
                   (∅ : Heap.heap Q)
                 = Returns (1%positive, {[1%positive := []]})).
  { rewrite heap_generate. reflexivity. }
  split; [exact Hrun|].
  intros [e He]. rewrite Hrun in He. discriminate He.
Qed.

(** C3, amended.  The function performs no check on the term count and
    raises no error: for a term count outside [1, 1000] the call returns a
    list, which is empty when the term count is below 1 and has as many
    elements as the term count when that exceeds 1000. *)
Theorem generate_out_of_range {num} `{Number num}
    (first_term common_difference : num) (term_count : Z)
    (h : Heap.heap num) :
  term_count < 1 \/ 1000 < term_count ->
  exists sequence h' items,
    Heap.generate_arithmetic_sequence
      first_term common_difference term_count h = Returns (sequence, h')
    /\ h' !! sequence = Some items
    /\ (term_count < 1 -> items = [])
    /\ (1000 < term_count -> Z.of_nat (List.length items) = term_count).
Proof.
  intros _.
  do 3 eexists.
  split; [apply heap_generate|].
  split; [apply lookup_insert_eq|].
  split; intros Hn.
  - apply generate_nonpositive. lia.
  - rewrite generate_length. lia.
Qed.

Lemma generate_out_of_range_witness :
  (0 < 1 \/ 1000 < 0) /\
  exists sequence h' items,
    Heap.generate_arithmetic_sequence 0%Q 0%Q 0 (∅ : Heap.heap Q)
    = Returns (sequence, h')
    /\ h' !! sequence = Some items
    /\ (0 < 1 -> items = [])
    /\ (1000 < 0 -> Z.of_nat (List.length items) = 0).
Proof.
  split; [left; lia|].
  apply (generate_out_of_range 0%Q 0%Q 0 ∅). left; lia.
Defined.

(** C9.  The function is pure and deterministic.  Started from any two
    heaps with the same arguments, both calls return, and the lists they
    return have the same items; these depend on the arguments only.  The
    list returned is a new object, and every object that existed before
    the call is unchanged after it. *)
Theorem generate_pure {num} `{Number num}
    (first_term common_difference : num) (term_count : Z)
    (h1 h2 : Heap.heap num) :
  exists sequence1 h1' sequence2 h2',
    Heap.generate_arithmetic_sequence
      first_term common_difference term_count h1 = Returns (sequence1, h1')
    /\ Heap.generate_arithmetic_sequence
         first_term common_difference term_count h2 = Returns (sequence2, h2')
    /\ h1' !! sequence1 = h2' !! sequence2
    /\ h1' !! sequence1
       = Some (generate_arithmetic_sequence
                 first_term common_difference term_count)
    /\ h1 !! sequence1 = None
    /\ (forall l, l <> sequence1 -> h1' !! l = h1 !! l).
Proof.
  do 4 eexists.
  split; [apply heap_generate|]. split; [apply heap_generate|].
  rewrite !lookup_insert_eq.
  split; [reflexivity|]. split; [reflexivity|].
  split; [apply fresh_unused|].
  intros l Hl. by apply lookup_insert_ne.
Qed.

(** C10.  For a term count of zero or less the function returns the empty
    list and raises no error; no upper bound is enforced either: for a
    term count above 1000 it returns a list of that many elements. *)
Theorem generate_unchecked {num} `{Number num}
    (first_term common_difference : num) (term_count : Z)
    (h : Heap.heap num) :
  (exists sequence h',
      Heap.generate_arithmetic_sequence
        first_term common_difference term_count h = Returns (sequence, h')
      /\ h' !! sequence
         = Some (generate_arithmetic_sequence
                   first_term common_difference term_count))
  /\ (term_count <= 0 ->
      generate_arithmetic_sequence first_term common_difference term_count
      = [])
  /\ (1000 < term_count ->
      Z.of_nat
        (List.length
           (generate_arithmetic_sequence
              first_term common_difference term_count))
      = term_count).
Proof.
  split.
  - do 2 eexists. split; [apply heap_generate|].
    apply lookup_insert_eq.
  - split; intros Hn.
    + by apply generate_nonpositive.
    + rewrite generate_length. lia.
Qed.

Lemma generate_unchecked_witness :
  (-3 <= 0 /\ generate_arithmetic_sequence 1%Q 1%Q (-3) = [])
  /\ (1000 < 1001 /\
      Z.of_nat (List.length (generate_arithmetic_sequence 1%Q 1%Q 1001))
      = 1001).
Proof.
  split; (split; [lia|]).
  - apply (proj1 (proj2 (generate_unchecked 1%Q 1%Q (-3) ∅))). lia.
  - apply (proj2 (proj2 (generate_unchecked 1%Q 1%Q 1001 ∅))). lia.
Defined.

(** ** Sums and extrema over the rationals *)

Section SummaryFacts.
Implicit Types (a d x m : Q) (items rest : list Q).



Lemma py_sum_snoc items x : py_sum (items ++ [x]) = (py_sum items + x)%Q.
Proof. unfold py_sum. by rewrite foldl_snoc. Qed.

Lemma generate_succ {num} `{Number num} (a d : num) (k : nat) :
  generate_arithmetic_sequence a d (Z.of_nat (S k))
  = generate_arithmetic_sequence a d (Z.of_nat k)
    ++ [nth_term a d (Z.of_nat k)].
Proof.
  unfold generate_arithmetic_sequence, range.
  rewrite seqZ_S, foldl_snoc. reflexivity.
Qed.

(** Gauss' sum for the generated terms. *)
Lemma py_sum_generate a d (k : nat) :
  (py_sum (generate_arithmetic_sequence a d (Z.of_nat k))
   == inject_Z (Z.of_nat k) * a
      + d * (inject_Z (Z.of_nat k) * (inject_Z (Z.of_nat k) - 1)) / 2)%Q.
Proof.
  induction k as [|k IH].
  - vm_compute py_sum. simpl inject_Z. field.
  - rewrite generate_succ, py_sum_snoc, IH.
    unfold nth_term; simpl add; simpl mul; simpl of_int.
    rewrite Nat2Z.inj_succ. unfold Z.succ. rewrite inject_Z_plus.
    simpl (inject_Z 1). field.
Qed.

Lemma min_loop rest :
  forall m0,
    let m := foldl (fun m y => if Qlt_le_dec y m then y else m) m0 rest in
    (m = m0 \/ In m rest) /\ (m <= m0)%Q /\ (forall y, In y rest -> m <= y)%Q.
Proof.
  induction rest as [|y rest IH]; intros m0; simpl.
  - split; [by left|]. split; [apply Qle_refl | intros ? []].
  - destruct (Qlt_le_dec y m0) as [Hlt|Hle].
    + destruct (IH y) as (Hin & Hle & Hall).
      split; [right; destruct Hin; auto|].
      split; [eapply Qle_trans; [exact Hle | by apply Qlt_le_weak]|].
      intros z [<-|Hz]; auto.
    + destruct (IH m0) as (Hin & Hle' & Hall).
      split; [destruct Hin; auto|]. split; [exact Hle'|].
      intros z [<-|Hz]; [eapply Qle_trans; eassumption | auto].
Qed.

Lemma max_loop rest :
  forall m0,
    let m := foldl (fun m y => if Qlt_le_dec m y then y else m) m0 rest in
    (m = m0 \/ In m rest) /\ (m0 <= m)%Q /\ (forall y, In y rest -> y <= m)%Q.
Proof.
  induction rest as [|y rest IH]; intros m0; simpl.
  - split; [by left|]. split; [apply Qle_refl | intros ? []].
  - destruct (Qlt_le_dec m0 y) as [Hlt|Hle].
    + destruct (IH y) as (Hin & Hle & Hall).
      split; [right; destruct Hin; auto|].
      split; [eapply Qle_trans; [by apply Qlt_le_weak | exact Hle]|].
      intros z [<-|Hz]; auto.
    + destruct (IH m0) as (Hin & Hle' & Hall).
      split; [destruct Hin; auto|]. split; [exact Hle'|].
      intros z [<-|Hz]; [eapply Qle_trans; eassumption | auto].
Qed.

Lemma py_min_spec items :
  items <> [] ->
  exists m, py_min items = Returns m
            /\ In m items /\ (forall y, In y items -> m <= y)%Q.
Proof.
  destruct items as [|x rest]; [done|]. intros _.
  destruct (min_loop rest x) as (Hin & Hle & Hall).
  eexists. split; [reflexivity|]. split.
  - destruct Hin as [->|Hin]; [by left | by right].
  - intros y [<-|Hy]; auto.
Qed.

Lemma py_max_spec items :
  items <> [] ->
  exists m, py_max items = Returns m
            /\ In m items /\ (forall y, In y items -> y <= m)%Q.
Proof.
  destruct items as [|x rest]; [done|]. intros _.
  destruct (max_loop rest x) as (Hin & Hle & Hall).
  eexists. split; [reflexivity|]. split.
  - destruct Hin as [->|Hin]; [by left | by right].
  - intros y [<-|Hy]; auto.
Qed.

Lemma generate_nonempty {num} `{Number num} (a d : num) (n : Z) :
  1 <= n -> generate_arithmetic_sequence a d n <> [].
Proof.
  intros Hn Hnil. apply (f_equal List.length) in Hnil.
  rewrite generate_length in Hnil. simpl in Hnil. lia.
Qed.

(** For a non-empty list and a non-zero count no step of
    [sequence_properties] raises. *)
Lemma sequence_properties_returns d (n : Z) items :
  n <> 0 -> items <> [] ->
  exists lo hi,
    py_min items = Returns lo /\ py_max items = Returns hi
    /\ sequence_properties d n items
       = Returns {| sequence_sum := py_sum items;
                    average := (py_sum items / inject_Z n)%Q;
                    range_min := lo; range_max := hi;
                    increasing_label := is_increasing d |}.
Proof.
  intros Hn Hne.
  destruct (py_min_spec items Hne) as (lo & Hlo & _).
  destruct (py_max_spec items Hne) as (hi & Hhi & _).
  exists lo, hi. split; [done|]. split; [done|].
  unfold sequence_properties, py_div.
  destruct (Z.eqb_spec n 0) as [|_]; [done|].
  simpl. rewrite Hlo, Hhi. reflexivity.
Qed.

End SummaryFacts.

(** ** Claims about the sequence properties *)

Lemma is_increasing_cases (d : Q) :
  (0 < d /\ is_increasing d = "Yes"%string)%Q
  \/ (d < 0 /\ is_increasing d = "No"%string)%Q
  \/ (d == 0 /\ is_increasing d = "Constant"%string)%Q.
Proof.
  unfold is_increasing.
  destruct (Qlt_le_dec 0 d) as [Hpos|Hle]; [by left|].
  destruct (Qlt_le_dec d 0) as [Hneg|Hge]; [right; by left|].
  right; right. split; [by apply Qle_antisym | done].
Qed.

Lemma is_increasing_compare (d : Q) :
  is_increasing d
  = match (d ?= 0)%Q with
    | Gt => "Yes"%string
    | Lt => "No"%string
    | Eq => "Constant"%string
    end.
Proof.
  destruct (is_increasing_cases d) as [[H1 ->]|[[H1 ->]|[H1 ->]]].
  - apply (proj1 (Qgt_alt d 0)) in H1. by rewrite H1.
  - apply (proj1 (Qlt_alt d 0)) in H1. by rewrite H1.
  - apply (proj1 (Qeq_alt d 0)) in H1. by rewrite H1.
Qed.

(** C4.  The trend reported on the "Is increasing" line is increasing
    (label [Yes]) exactly when the common difference is positive,
    decreasing (label [No]) exactly when it is negative, and constant
    (label [Constant]) exactly when it is zero.  It is computed from the
    common difference alone: whatever the other inputs and the sequence
    are, the properties carry the trend of the common difference, and two
    common differences of the same sign give the same trend. *)
Theorem trend_by_sign (d : Q) :
  (trend_of_label (is_increasing d) = Some Increasing <-> (0 < d)%Q)
  /\ (trend_of_label (is_increasing d) = Some Decreasing <-> (d < 0)%Q)
  /\ (trend_of_label (is_increasing d) = Some Constant <-> (d == 0)%Q)
  /\ (is_increasing d = "Yes"%string <-> (0 < d)%Q)
  /\ (is_increasing d = "No"%string <-> (d < 0)%Q)
  /\ (is_increasing d = "Constant"%string <-> (d == 0)%Q)
  /\ (forall (num_terms : Z) (sequence : list Q) (p : properties),
         sequence_properties d num_terms sequence = Returns p ->
         increasing_label p = is_increasing d)
  /\ (forall d' : Q,
         (d ?= 0)%Q = (d' ?= 0)%Q -> is_increasing d = is_increasing d').
Proof.
  assert (Hirr : forall x : Q, ~ (x < x)%Q) by apply Qlt_irrefl.
  assert (Hcases := is_increasing_cases d).
  repeat split.
  1-12: try (intros Hd;
    destruct Hcases as [[H1 H2]|[[H1 H2]|[H1 H2]]]; rewrite ?H2 in *;
    try reflexivity; try discriminate; try assumption; exfalso;
    try (rewrite H1 in Hd; by apply (Hirr 0%Q));
    try (rewrite Hd in H1; by apply (Hirr 0%Q));
    by apply (Hirr d), (Qlt_trans _ 0%Q)).
  - intros num_terms sequence p Hp. unfold sequence_properties in Hp.
    destruct (py_div _ _); [|done].
    destruct (py_min _); [|done]. destruct (py_max _); [|done].
    simpl in Hp. by injection Hp as <-.
  - intros d' Hsame. by rewrite !is_increasing_compare, Hsame.
Qed.

Lemma trend_by_sign_witness :
  trend_of_label (is_increasing (2 # 1)) = Some Increasing
  /\ trend_of_label (is_increasing (-7 # 1)) = Some Decreasing
  /\ trend_of_label (is_increasing 0) = Some Constant
  /\ is_increasing (1 # 2) = is_increasing (3 # 1).
Proof.
  split; [apply (proj1 (trend_by_sign (2 # 1))); reflexivity|].
  split; [apply (proj1 (proj2 (trend_by_sign (-7 # 1)))); reflexivity|].
  split; [apply (proj1 (proj2 (proj2 (trend_by_sign 0)))); reflexivity|].
  apply (proj2 (proj2 (proj2 (proj2 (proj2 (proj2 (proj2
           (trend_by_sign (1 # 2))))))))). reflexivity.
Defined.

(** C5.  For a term count between 1 and 1000 the average shown for the
    generated sequence, its sum divided by the term count, equals
    [a + ((n - 1) / 2) * d] in exact rational arithmetic. *)
Theorem average_closed_form (a d : Q) (n : Z) :
  1 <= n <= 1000 ->
  exists p,
    sequence_properties d n (generate_arithmetic_sequence a d n) = Returns p
    /\ (average p == sequence_sum p / inject_Z n)%Q
    /\ (average p == a + (inject_Z (n - 1) / 2) * d)%Q.
Proof.
  intros [Hn _].
  destruct (sequence_properties_returns d n
              (generate_arithmetic_sequence a d n))
    as (lo & hi & _ & _ & Hp); [lia | by apply generate_nonempty|].
  eexists. split; [exact Hp|]. simpl. split; [reflexivity|].
  rewrite <- (Z2Nat.id n) at 1 2 by lia.
  rewrite py_sum_generate, Z2Nat.id by lia.
  unfold Z.sub. rewrite inject_Z_plus, inject_Z_opp.
  change (inject_Z 1) with 1%Q.
  field. intros H0. unfold Qeq in H0. simpl in H0. lia.
Qed.

Lemma average_closed_form_witness :
  1 <= 10 <= 1000 /\
  exists p,
    sequence_properties 1 10 (generate_arithmetic_sequence 1%Q 1%Q 10)
    = Returns p
    /\ (average p == sequence_sum p / inject_Z 10)%Q
    /\ (average p == 1 + (inject_Z (10 - 1) / 2) * 1)%Q.
Proof. split; [lia|]. apply (average_closed_form 1 1 10). lia. Defined.



(** ** Characters of rendered numbers *)

Section Rendering.
Local Open Scope string_scope.

Lemma string_app_assoc (s t u : string) : s ++ t ++ u = (s ++ t) ++ u.
Proof.
  induction s as [|c s IH]; [done|].
  change (String c (s ++ t ++ u) = String c ((s ++ t) ++ u)).
  by rewrite IH.
Qed.

Lemma has_char_app c (s t : string) :
  has_char c (s ++ t) = has_char c s || has_char c t.
Proof.
  induction s as [|c' s IH]; simpl; [done|].
  by rewrite IH, orb_assoc.
Qed.

Lemma uint_chars c (u : Decimal.uint) :
  has_char c (NilEmpty.string_of_uint u) = true -> is_digit c = true.
Proof.
  induction u; simpl; [done|..];
    (intros [Hc%Ascii.eqb_eq|Hc]%orb_true_iff; [by subst c | auto]).
Qed.

(** [str] of an [int] consists of digits, after a minus sign if any. *)
Lemma str_int_chars c (n : Z) :
  has_char c (str_int n) = true -> is_digit c = true \/ c = "-"%char.
Proof.
  unfold str_int, NilZero.string_of_int.
  destruct (Z.to_int n) as [u|u].
  - unfold NilZero.string_of_uint. destruct u; simpl.
    1: { intros [Hc%Ascii.eqb_eq|Hc]%orb_true_iff; [left; by subst c|done]. }
    all: intros [Hc%Ascii.eqb_eq|Hc]%orb_true_iff;
      [left; by subst c | left; by apply uint_chars in Hc].
  - simpl. intros [Hc%Ascii.eqb_eq|Hc]%orb_true_iff; [by right|left].
    revert Hc. unfold NilZero.string_of_uint. destruct u; simpl.
    1: { intros [Hc%Ascii.eqb_eq|Hc]%orb_true_iff; [by subst c|done]. }
    all: intros [Hc%Ascii.eqb_eq|Hc]%orb_true_iff;
      [by subst c | by apply uint_chars in Hc].
Qed.

Lemma str_int_lacks c (n : Z) :
  is_digit c = false -> c <> "-"%char -> has_char c (str_int n) = false.
Proof.
  intros Hd Hm. destruct (has_char c (str_int n)) eqn:Hc; [|done].
  apply str_int_chars in Hc as [Hc| ->]; congruence.
Qed.

Lemma digit_is_digit (k : Z) : 0 <= k < 10 -> is_digit (digit k) = true.
Proof.
  intros Hk.
  assert (Hcases : k = 0 \/ k = 1 \/ k = 2 \/ k = 3 \/ k = 4
                   \/ k = 5 \/ k = 6 \/ k = 7 \/ k = 8 \/ k = 9) by lia.
  repeat (destruct Hcases as [->|Hcases]; [reflexivity|]).
  by subst k.
Qed.

(** [f"{x:.2f}"] is a sign-and-digits part without a point, a point, and
    two digits. *)
Lemma format_2f_shape (x : Q) :
  exists whole d1 d2,
    format_2f x = whole ++ "." ++ String d1 (String d2 "")
    /\ has_char "." whole = false
    /\ is_digit d1 = true /\ is_digit d2 = true.
Proof.
  unfold format_2f.
  set (scaled := round_half_even (Qabs x * 100)).
  set (sign := match (x ?= 0)%Q with Lt => "-" | _ => "" end).
  exists (sign ++ str_int (scaled / 100)),
    (digit (scaled / 10 mod 10)), (digit (scaled mod 10)).
  split; [|split; [|split]].
  - by rewrite string_app_assoc.
  - rewrite has_char_app, str_int_lacks by done.
    subst sign. by destruct (x ?= 0)%Q.
  - apply digit_is_digit. apply Z.mod_pos_bound. lia.
  - apply digit_is_digit. apply Z.mod_pos_bound. lia.
Qed.

Lemma differs_from_int_false (term : Q) :
  (term == inject_Z (py_int term))%Q <-> differs_from_int term = false.
Proof.
  unfold differs_from_int. rewrite negb_false_iff. symmetry.
  apply Qeq_bool_iff.
Qed.

End Rendering.

(** ** Positions: [enumerate], slices and the table *)

Lemma enumerate_lookup {A} (items : list A) (i : nat) (x : A) :
  items !! i = Some x -> enumerate items !! i = Some (Z.of_nat i, x).
Proof.
  intros Hx. unfold enumerate, range.
  rewrite lookup_zip_with, Hx.
  rewrite lookup_seqZ_lt; [done|].
  apply lookup_lt_Some in Hx. lia.
Qed.

Lemma enumerate_length {A} (items : list A) :
  List.length (enumerate items) = List.length items.
Proof.
  unfold enumerate, range.
  rewrite length_zip_with, length_seqZ. lia.
Qed.

Lemma slice_lookup {A} (items : list A) (start stop : Z) (i : nat) :
  0 <= start -> start + Z.of_nat i < stop ->
  slice items start stop !! i = items !! (Z.to_nat start + i)%nat.
Proof.
  intros Hstart Hi. unfold slice.
  rewrite lookup_take_lt by lia. apply lookup_drop.
Qed.

(** The cell of the term at 0-based index [k]: row [k / 10], column
    [k mod 10], labelled [k + 1], showing [formatted_term]. *)
Lemma table_cell (num_terms : Z) (sequence : list Q) (k : nat) (term : Q) :
  Z.of_nat k < num_terms ->
  sequence !! k = Some term ->
  exists cells,
    table num_terms sequence !! (k / 10)%nat = Some cells
    /\ cells !! (k mod 10)%nat = Some (Z.of_nat k + 1, formatted_term term).
Proof.
  intros Hk Hterm.
  pose proof (Nat.div_mod_eq k 10) as Hdm.
  pose proof (Nat.mod_upper_bound k 10 ltac:(lia)) as Hmod.
  unfold table.
  change (map ?f ?l) with (f <$> l). rewrite list_lookup_fmap.
  unfold range at 1. rewrite lookup_seqZ_lt.
  2: { assert (- num_terms <= -1 - 10 * Z.of_nat (k / 10)) by lia.
       pose proof (Z.div_le_upper_bound (- num_terms) 10
                     (- Z.of_nat (k / 10) - 1) ltac:(lia)).
       assert ((- num_terms) / 10 < - Z.of_nat (k / 10)); [|lia].
       apply Z.div_lt_upper_bound; lia. }
  cbn [fmap option_fmap option_map]. eexists. split; [reflexivity|].
  change (map ?f ?l) with (f <$> l). rewrite list_lookup_fmap.
  rewrite (enumerate_lookup _ _ term).
  - cbn [fmap option_fmap option_map]. f_equal. f_equal. lia.
  - rewrite slice_lookup by lia.
    replace (Z.to_nat ((0 + Z.of_nat (k / 10)) * 10) + k mod 10)%nat
      with k by lia.
    exact Hterm.
Qed.

(** ** The text export *)

Section ExportFacts.
Context {num : Type} (str_term : num -> string).
Local Open Scope string_scope.











End ExportFacts.

Lemma download_data_small {num} (str_term : num -> string)
    (num_terms : Z) (sequence : list num) :
  num_terms <= 10 -> download_data str_term num_terms sequence = None.
Proof.
  intros Hn. unfold download_data.
  destruct (Z.ltb_spec 10 num_terms); [lia|done].
Qed.

(** * Further properties of the code *)

(** ** The list as a whole *)

Lemma generate_In {num} `{Number num}
    (first_term common_difference : num) (num_terms : Z) (x : num) :
  In x (generate_arithmetic_sequence first_term common_difference num_terms)
  <-> exists i : Z,
        0 <= i < num_terms /\ x = nth_term first_term common_difference i.
Proof.
  rewrite generate_as_map, in_map_iff. unfold range. split.
  - intros (i & <- & Hi%list_elem_of_In%elem_of_seqZ). exists i. split; [lia|done].
  - intros (i & Hi & ->). exists i. split; [done|].
    apply list_elem_of_In, elem_of_seqZ. lia.
Qed.

(** X1.  The "Last Term" metric reads [sequence[-1]]: for at least one
    term it is [first_term + (num_terms - 1) * common_difference]; for a
    term count of zero or less the list is empty and the indexing raises
    [IndexError]. *)
Theorem last_term_value {num} `{Number num}
    (first_term common_difference : num) (num_terms : Z) :
  (1 <= num_terms ->
   last_term
     (generate_arithmetic_sequence first_term common_difference num_terms)
   = Returns (add first_term
                  (mul (of_int (num_terms - 1)) common_difference)))
  /\ (num_terms <= 0 ->
      last_term
        (generate_arithmetic_sequence first_term common_difference num_terms)
      = Raises IndexError).
Proof.
  split; intros Hn.
  - by apply last_term_generate.
  - by rewrite generate_nonpositive.
Qed.

Lemma last_term_value_witness :
  (1 <= 15 /\
   last_term (generate_arithmetic_sequence 100%Q (-7 # 1)%Q 15)
   = Returns (100 + inject_Z (15 - 1) * (-7 # 1))%Q)
  /\ (-2 <= 0 /\
      last_term (generate_arithmetic_sequence 100%Q (-7 # 1)%Q (-2))
      = Raises IndexError).
Proof.
  split; (split; [lia|]).
  - exact (proj1 (last_term_value 100%Q (-7 # 1)%Q 15) ltac:(lia)).
  - exact (proj2 (last_term_value 100%Q (-7 # 1)%Q (-2)) ltac:(lia)).
Defined.

(** X2.  Asking for fewer terms gives a prefix of the longer list: the
    first [m] elements of the list for [n >= m] terms are the list for [m]
    terms; and one more term appends [first_term + n * common_difference]
    to the list for [n] terms. *)
Theorem generate_prefix {num} `{Number num}
    (first_term common_difference : num) (m n : Z) :
  (m <= n ->
   take (Z.to_nat m)
        (generate_arithmetic_sequence first_term common_difference n)
   = generate_arithmetic_sequence first_term common_difference m)
  /\ (0 <= n ->
      generate_arithmetic_sequence first_term common_difference (n + 1)
      = generate_arithmetic_sequence first_term common_difference n
        ++ [add first_term (mul (of_int n) common_difference)]).
Proof.
  split.
  - intros Hmn. apply list_eq. intros i.
    destruct (decide (Z.of_nat i < m)) as [Hi|Hi].
    + rewrite lookup_take_lt by lia.
      by rewrite !generate_lookup by lia.
    + rewrite lookup_take_ge by lia.
      by rewrite generate_lookup_ge by lia.
  - intros Hn.
    replace (n + 1) with (Z.of_nat (S (Z.to_nat n))) by lia.
    rewrite generate_succ. unfold nth_term. by rewrite Z2Nat.id by done.
Qed.

Lemma generate_prefix_witness :
  (3 <= 10 /\
   take (Z.to_nat 3) (generate_arithmetic_sequence 2 5 10)
   = generate_arithmetic_sequence 2 5 3)
  /\ (0 <= 4 /\
      generate_arithmetic_sequence 2 5 (4 + 1)
      = generate_arithmetic_sequence 2 5 4 ++ [2 + 4 * 5]).
Proof.
  split; (split; [lia|]).
  - exact (proj1 (generate_prefix 2 5 3 10) ltac:(lia)).
  - exact (proj2 (generate_prefix 2 5 3 4) ltac:(lia)).
Defined.

(** X3.  Two calls in a row return two different list objects, each
    holding the terms of its own call: a later call does not reuse or
    change the list an earlier call returned, and both leave every older
    object as it was. *)
Theorem generate_twice_separate {num} `{Number num}
    (first_term common_difference : num) (num_terms : Z)
    (first_term' common_difference' : num) (num_terms' : Z)
    (h : Heap.heap num) :
  exists sequence sequence' h',
    generate_twice first_term common_difference num_terms
                   first_term' common_difference' num_terms' h
    = Returns ((sequence, sequence'), h')
    /\ sequence <> sequence'
    /\ h' !! sequence
       = Some (generate_arithmetic_sequence
                 first_term common_difference num_terms)
    /\ h' !! sequence'
       = Some (generate_arithmetic_sequence
                 first_term' common_difference' num_terms')
    /\ (forall l items, h !! l = Some items -> h' !! l = Some items).
Proof.
  unfold generate_twice, Heap.bind. rewrite heap_generate.
  rewrite heap_generate. unfold Heap.ret.
  set (l := fresh (dom h)).
  set (h1 := <[l := generate_arithmetic_sequence
                      first_term common_difference num_terms]> h).
  set (l' := fresh (dom h1)).
  assert (Hl : h !! l = None) by apply fresh_unused.
  assert (Hl' : h1 !! l' = None) by apply fresh_unused.
  assert (Hne : l <> l').
  { intros Heq. rewrite <- Heq in Hl'. subst h1.
    by rewrite lookup_insert_eq in Hl'. }
  do 3 eexists. split; [reflexivity|]. split; [exact Hne|].
  split.
  { rewrite lookup_insert_ne by (intros Heq; by apply Hne).
    subst h1. by rewrite lookup_insert_eq. }
  split; [by rewrite lookup_insert_eq|].
  intros k items Hk.
  assert (k <> l) by (intros ->; congruence).
  assert (h1 !! k = Some items)
    by (subst h1; by rewrite lookup_insert_ne by done).
  assert (k <> l') by (intros ->; congruence).
  by rewrite lookup_insert_ne by done.
Qed.

(** ** The terms as rationals: steps, order, extrema, sum *)

Lemma nth_term_Q (a d : Q) (i : Z) :
  nth_term a d i = (a + inject_Z i * d)%Q.
Proof. reflexivity. Qed.

Lemma generate_lookup_inv {num} `{Number num}
    (first_term common_difference : num) (num_terms : Z) (i : nat) (x : num) :
  generate_arithmetic_sequence first_term common_difference num_terms !! i
  = Some x ->
  Z.of_nat i < num_terms
  /\ x = nth_term first_term common_difference (Z.of_nat i).
Proof.
  intros Hx. pose proof (lookup_lt_Some _ _ _ Hx) as Hi.
  rewrite generate_length in Hi.
  assert (Hlt : Z.of_nat i < num_terms) by lia.
  rewrite generate_lookup in Hx by done. by injection Hx as <-.
Qed.

Lemma generate_step (a d : Q) (n : Z) (i : nat) (x y : Q) :
  generate_arithmetic_sequence a d n !! i = Some x ->
  generate_arithmetic_sequence a d n !! S i = Some y ->
  (y == x + d)%Q.
Proof.
  intros [_ ->]%generate_lookup_inv [_ ->]%generate_lookup_inv.
  rewrite !nth_term_Q, Nat2Z.inj_succ. unfold Z.succ.
  rewrite inject_Z_plus. change (inject_Z 1) with 1%Q. ring.
Qed.

(** X4.  Consecutive terms differ by the common difference: each term is
    the term before it plus [common_difference]. *)
Theorem consecutive_difference (a d : Q) (n : Z) (i : nat) (x y : Q) :
  generate_arithmetic_sequence a d n !! i = Some x ->
  generate_arithmetic_sequence a d n !! S i = Some y ->
  (y - x == d)%Q.
Proof.
  intros Hx Hy. rewrite (generate_step a d n i x y Hx Hy). ring.
Qed.

Lemma consecutive_difference_witness :
  generate_arithmetic_sequence 2%Q (3 # 1)%Q 5 !! 1%nat
  = Some (2 + inject_Z 1 * (3 # 1))%Q
  /\ generate_arithmetic_sequence 2%Q (3 # 1)%Q 5 !! 2%nat
     = Some (2 + inject_Z 2 * (3 # 1))%Q
  /\ ((2 + inject_Z 2 * (3 # 1)) - (2 + inject_Z 1 * (3 # 1)) == 3 # 1)%Q.
Proof.
  split; [reflexivity|]. split; [reflexivity|].
  exact (consecutive_difference 2%Q (3 # 1)%Q 5 1 _ _ eq_refl eq_refl).
Defined.

Lemma neighbours_generate (R : Q -> Q -> Prop) (a d : Q) (n : Z) :
  2 <= n ->
  (forall x y : Q, (y == x + d)%Q -> (R x y <-> R 0%Q d)) ->
  neighbours R (generate_arithmetic_sequence a d n) <-> R 0%Q d.
Proof.
  intros Hn HR. split.
  - intros Hall.
    apply (HR (nth_term a d (Z.of_nat 0)) (nth_term a d (Z.of_nat 1))).
    + rewrite !nth_term_Q. simpl. ring.
    + apply (Hall 0%nat); by apply generate_lookup; lia.
  - intros Hd i x y Hx Hy. apply (HR x y); [|done].
    by apply (generate_step a d n i).
Qed.

(** X5.  In exact rational arithmetic the "Is increasing" line tells how
    the listed terms run: with at least two terms it reads [Yes] exactly
    when every term is greater than the one before it, [No] exactly when
    every term is smaller than the one before it, and [Constant] exactly
    when every term equals the one before it.  (In binary64 a small
    difference can be rounded away, see [binary64_label_and_terms].) *)
Theorem label_matches_terms (a d : Q) (n : Z) :
  2 <= n ->
  (is_increasing d = "Yes"%string
   <-> neighbours Qlt (generate_arithmetic_sequence a d n))
  /\ (is_increasing d = "No"%string
      <-> neighbours (fun x y => (y < x)%Q)
                     (generate_arithmetic_sequence a d n))
  /\ (is_increasing d = "Constant"%string
      <-> neighbours Qeq (generate_arithmetic_sequence a d n)).
Proof.
  intros Hn.
  rewrite (neighbours_generate Qlt a d n Hn)
    by (intros x y ->; split; intros; lra).
  rewrite (neighbours_generate (fun x y => (y < x)%Q) a d n Hn)
    by (intros x y ->; split; intros; lra).
  rewrite (neighbours_generate Qeq a d n Hn)
    by (intros x y ->; split; intros; lra).
  destruct (is_increasing_cases d) as [[Hd ->]|[[Hd ->]|[Hd ->]]];
    repeat split; intros; try done; try lra.
Qed.

Lemma label_matches_terms_witness :
  2 <= 15
  /\ neighbours (fun x y => (y < x)%Q)
                (generate_arithmetic_sequence 100%Q (-7 # 1)%Q 15).
Proof.
  split; [lia|].
  apply (proj1 (proj2 (label_matches_terms 100%Q (-7 # 1)%Q 15
                         ltac:(lia)))).
  reflexivity.
Defined.

Lemma scaled_le (d : Q) (i j : Z) :
  i <= j -> (0 <= d)%Q -> (inject_Z i * d <= inject_Z j * d)%Q.
Proof.
  intros Hij Hd. apply Qmult_le_compat_r; [|done]. by rewrite <- Zle_Qle.
Qed.

Lemma scaled_ge (d : Q) (i j : Z) :
  i <= j -> (d <= 0)%Q -> (inject_Z j * d <= inject_Z i * d)%Q.
Proof.
  intros Hij Hd.
  pose proof (scaled_le (- d) i j Hij ltac:(lra)) as Hle.
  lra.
Qed.

(** The terms lie between the first and the last one. *)
Lemma generate_between (a d : Q) (n : Z) (x : Q) :
  In x (generate_arithmetic_sequence a d n) ->
  ((0 <= d)%Q -> (a <= x /\ x <= a + inject_Z (n - 1) * d)%Q)
  /\ ((d <= 0)%Q -> (a + inject_Z (n - 1) * d <= x /\ x <= a)%Q).
Proof.
  intros (i & Hi & ->)%generate_In. rewrite nth_term_Q.
  split; intros Hd.
  - pose proof (scaled_le d 0 i ltac:(lia) Hd) as H0.
    pose proof (scaled_le d i (n - 1) ltac:(lia) Hd) as H1.
    change (inject_Z 0) with 0%Q in H0. lra.
  - pose proof (scaled_ge d 0 i ltac:(lia) Hd) as H0.
    pose proof (scaled_ge d i (n - 1) ltac:(lia) Hd) as H1.
    change (inject_Z 0) with 0%Q in H0. lra.
Qed.

Lemma generate_ends (a d : Q) (n : Z) :
  1 <= n ->
  exists x y,
    In x (generate_arithmetic_sequence a d n) /\ (x == a)%Q
    /\ In y (generate_arithmetic_sequence a d n)
    /\ (y == a + inject_Z (n - 1) * d)%Q.
Proof.
  intros Hn. exists (nth_term a d 0), (nth_term a d (n - 1)).
  split; [apply generate_In; exists 0; split; [lia|done]|].
  split; [rewrite nth_term_Q; change (inject_Z 0) with 0%Q; ring|].
  split; [apply generate_In; exists (n - 1); split; [lia|done]|].
  by rewrite nth_term_Q.
Qed.

(** X6.  The "Range" line runs from the first to the last term when the
    common difference is not negative, and from the last to the first
    term when it is not positive: the least and greatest terms found by
    [min] and [max] are the two ends of the list. *)
Theorem range_is_ends (a d : Q) (n : Z) :
  1 <= n ->
  exists p,
    sequence_properties d n (generate_arithmetic_sequence a d n) = Returns p
    /\ ((0 <= d)%Q ->
        (range_min p == a)%Q
        /\ (range_max p == a + inject_Z (n - 1) * d)%Q)
    /\ ((d <= 0)%Q ->
        (range_min p == a + inject_Z (n - 1) * d)%Q
        /\ (range_max p == a)%Q).
Proof.
  intros Hn.
  pose proof (generate_nonempty a d n Hn) as Hne.
  destruct (sequence_properties_returns d n _ ltac:(lia) Hne)
    as (lo & hi & Hlo & Hhi & Hp).
  destruct (py_min_spec _ Hne) as (lo' & Hlo' & Hlo_in & Hlo_le).
  destruct (py_max_spec _ Hne) as (hi' & Hhi' & Hhi_in & Hhi_le).
  rewrite Hlo in Hlo'. injection Hlo' as <-.
  rewrite Hhi in Hhi'. injection Hhi' as <-.
  destruct (generate_ends a d n Hn) as (x & y & Hx & Hxa & Hy & Hyb).
  pose proof (Hlo_le x Hx) as Hlox. pose proof (Hlo_le y Hy) as Hloy.
  pose proof (Hhi_le x Hx) as Hhix. pose proof (Hhi_le y Hy) as Hhiy.
  destruct (generate_between a d n lo Hlo_in) as [Hlo_up Hlo_down].
  destruct (generate_between a d n hi Hhi_in) as [Hhi_up Hhi_down].
  eexists. split; [exact Hp|]. simpl.
  split; intros Hd.
  - specialize (Hlo_up Hd). specialize (Hhi_up Hd). split; lra.
  - specialize (Hlo_down Hd). specialize (Hhi_down Hd). split; lra.
Qed.

Lemma range_is_ends_witness :
  1 <= 15 /\
  exists p,
    sequence_properties (-7 # 1) 15
      (generate_arithmetic_sequence 100%Q (-7 # 1)%Q 15) = Returns p
    /\ (range_min p == 2)%Q /\ (range_max p == 100)%Q.
Proof.
  split; [lia|].
  destruct (range_is_ends 100%Q (-7 # 1)%Q 15 ltac:(lia))
    as (p & Hp & _ & Hdown).
  exists p. split; [exact Hp|].
  destruct (Hdown ltac:(discriminate)) as [Hmin Hmax].
  split; [rewrite Hmin; reflexivity | exact Hmax].
Defined.



(** ** Errors of the properties block and of the whole results block *)

(** X8.  What the properties block raises: [ZeroDivisionError] when the
    term count is 0, whatever the list (the division comes first);
    otherwise [ValueError] when the list is empty (from [min]); otherwise
    nothing, and the average is the sum over the term count given, not
    over the length of the list. *)
Theorem sequence_properties_errors (d : Q) (n : Z) (items : list Q) :
  (n = 0 -> sequence_properties d n items = Raises ZeroDivisionError)
  /\ (n <> 0 -> items = [] ->
      sequence_properties d n items = Raises ValueError)
  /\ (n <> 0 -> items <> [] ->
      exists p,
        sequence_properties d n items = Returns p
        /\ sequence_sum p = py_sum items
        /\ average p = (py_sum items / inject_Z n)%Q).
Proof.
  split; [|split].
  - intros ->. reflexivity.
  - intros Hn ->. unfold sequence_properties, py_div.
    by destruct (Z.eqb_spec n 0).
  - intros Hn Hne.
    destruct (sequence_properties_returns d n items Hn Hne)
      as (lo & hi & _ & _ & Hp).
    eexists. split; [exact Hp|]. done.
Qed.

Lemma sequence_properties_errors_witness :
  (0 = 0 /\
   sequence_properties 1 0 [1; 2]%Q = Raises ZeroDivisionError)
  /\ (3 <> 0 /\ sequence_properties 1 3 [] = Raises ValueError)
  /\ (3 <> 0 /\ [1; 2]%Q <> [] /\
      exists p, sequence_properties 1 3 [1; 2]%Q = Returns p
                /\ sequence_sum p = py_sum [1; 2]%Q
                /\ average p = (py_sum [1; 2] / inject_Z 3)%Q).
Proof.
  split; [|split].
  - split; [done|].
    exact (proj1 (sequence_properties_errors 1 0 [1; 2]%Q) eq_refl).
  - split; [done|].
    exact (proj1 (proj2 (sequence_properties_errors 1 3 []))
             ltac:(done) eq_refl).
  - split; [done|]. split; [done|].
    exact (proj2 (proj2 (sequence_properties_errors 1 3 [1; 2]%Q))
             ltac:(done) ltac:(done)).
Defined.

(** ** The table *)

Lemma enumerate_lookup_inv {A} (items : list A) (i : nat) (z : Z) (x : A) :
  enumerate items !! i = Some (z, x) ->
  z = Z.of_nat i /\ items !! i = Some x.
Proof.
  unfold enumerate, range. intros Hzx.
  apply lookup_zip_with_Some in Hzx as (z' & x' & [= -> ->] & Hz & Hx).
  apply lookup_seqZ in Hz as [-> _]. split; [lia|done].
Qed.

Lemma slice_lookup_inv {A} (items : list A) (start stop : Z) (i : nat) x :
  slice items start stop !! i = Some x ->
  items !! (Z.to_nat start + i)%nat = Some x
  /\ (i < Z.to_nat (stop - start))%nat.
Proof.
  unfold slice. intros [Hx Hi]%lookup_take_Some.
  by rewrite lookup_drop in Hx.
Qed.

Lemma slice_length {A} (items : list A) (start stop : Z) :
  List.length (slice items start stop)
  = Nat.min (Z.to_nat (stop - start))
            (List.length items - Z.to_nat start).
Proof. unfold slice. by rewrite length_take, length_drop. Qed.

(** The row with 0-based number [r], when there is one. *)
Lemma table_row (num_terms : Z) (sequence : list Q) (r : nat) cells :
  table num_terms sequence !! r = Some cells ->
  Z.of_nat r * 10 < num_terms
  /\ cells
     = map (fun '(i, term) =>
              (Z.of_nat r * 10 + i + 1, formatted_term term))
           (enumerate
              (slice sequence (Z.of_nat r * 10)
                     (Z.min (Z.of_nat r * 10 + 10) num_terms))).
Proof.
  unfold table. change (map ?f ?l) with (f <$> l).
  rewrite list_lookup_fmap. unfold range at 1.
  intros (row & Hrow & ->)%fmap_Some.
  apply lookup_seqZ in Hrow as [-> Hr]. rewrite Z.add_0_l.
  split; [|reflexivity].
  revert Hr. generalize (Z.of_nat r). intros z Hz.
  Z.div_mod_to_equations. lia.
Qed.

(** X11.  The table has one row per started group of ten terms,
    [ceil(num_terms / 10)] rows in all; every row holds at least one and at
    most ten cells, all rows but the last exactly ten; and the cell in
    column [i] of row [r] shows the term at index [10 * r + i] under the
    label [10 * r + i + 1]: no cell is empty or shows anything but a term
    of the list. *)
Theorem table_shape (num_terms : Z) (sequence : list Q) :
  num_terms = Z.of_nat (List.length sequence) ->
  Z.of_nat (List.length (table num_terms sequence))
  = (num_terms + 9) / 10
  /\ (forall (r : nat) cells,
         table num_terms sequence !! r = Some cells ->
         Z.of_nat (List.length cells)
         = Z.min 10 (num_terms - 10 * Z.of_nat r)
         /\ 1 <= Z.of_nat (List.length cells) <= 10)
  /\ (forall (r i : nat) cells (cell : Z * string),
         table num_terms sequence !! r = Some cells ->
         cells !! i = Some cell ->
         exists term,
           sequence !! (10 * r + i)%nat = Some term
           /\ cell = (Z.of_nat (10 * r + i) + 1, formatted_term term)).
Proof.
  intros Hlen. split; [|split].
  - unfold table. rewrite length_map. unfold range.
    rewrite length_seqZ.
    assert (0 <= num_terms) by lia.
    Z.div_mod_to_equations. lia.
  - intros r cells [Hr ->]%table_row.
    rewrite length_map, enumerate_length, slice_length. lia.
  - intros r i cells cell [Hr ->]%table_row Hcell.
    change (map ?f ?l) with (f <$> l) in Hcell.
    rewrite list_lookup_fmap in Hcell.
    apply fmap_Some in Hcell as ([z term] & Hzt & ->).
    apply enumerate_lookup_inv in Hzt as [-> Hterm].
    apply slice_lookup_inv in Hterm as [Hterm _].
    exists term. split.
    + by replace (10 * r + i)%nat
        with (Z.to_nat (Z.of_nat r * 10) + i)%nat by lia.
    + f_equal. lia.
Qed.

Lemma table_shape_witness :
  23 = Z.of_nat
         (List.length (generate_arithmetic_sequence 1%Q (1 # 4)%Q 23))
  /\ Z.of_nat
       (List.length
          (table 23 (generate_arithmetic_sequence 1%Q (1 # 4)%Q 23)))
     = (23 + 9) / 10.
Proof.
  split; [reflexivity|].
  exact (proj1 (table_shape 23
                  (generate_arithmetic_sequence 1%Q (1 # 4)%Q 23)
                  eq_refl)).
Defined.

(** ** Whole-number sequences *)

Lemma whole_term (z w k : Z) :
  nth_term (inject_Z z) (inject_Z w) k = (z * 1 + k * w * 1) # 1.
Proof. reflexivity. Qed.

Lemma formatted_whole (m : Z) : formatted_term (m # 1) = str_int m.
Proof.
  unfold formatted_term, differs_from_int, py_int. simpl Qnum. simpl Qden.
  rewrite Z.quot_1_r.
  change (inject_Z m) with (m # 1). by rewrite Qeq_bool_refl.
Qed.

(** X12.  In exact rational arithmetic, when the first term and the
    common difference are whole numbers, every term is shown as a whole
    number, without decimals: the one-line display is the integers
    [z + k * w] joined by commas.  (In binary64 whole numbers above
    [2 ** 53] are rounded, see [binary64_whole_numbers].) *)
Theorem whole_numbers_display (z w : Z) (n : Z) :
  map formatted_term
      (generate_arithmetic_sequence (inject_Z z) (inject_Z w) n)
  = map (fun k => str_int (z + k * w)) (range n)
  /\ sequence_str (generate_arithmetic_sequence (inject_Z z) (inject_Z w) n)
     = String.concat ", " (map (fun k => str_int (z + k * w)) (range n))
  /\ Forall (fun shown => has_char "." shown = false)
            (map formatted_term
               (generate_arithmetic_sequence (inject_Z z) (inject_Z w) n)).
Proof.
  assert (Hmap : map formatted_term
                   (generate_arithmetic_sequence (inject_Z z) (inject_Z w) n)
                 = map (fun k => str_int (z + k * w)) (range n)).
  { rewrite generate_as_map, map_map. apply map_ext. intros k.
    rewrite whole_term, formatted_whole. f_equal. lia. }
  split; [exact Hmap|]. split.
  - unfold sequence_str. by rewrite <- Hmap.
  - rewrite Hmap. change (map ?f ?l) with (f <$> l).
    apply Forall_fmap, Forall_forall. intros k _.
    by apply str_int_lacks.
Qed.

(** ** The display depends on the value only *)

Lemma py_int_floor (x : Q) :
  py_int x = if 0 <=? Qnum x then Qfloor x else - Qfloor (- x).
Proof.
  destruct x as [m den]. unfold py_int, Qfloor, Qopp. simpl Qnum. simpl Qden.
  destruct (Z.leb_spec 0 m) as [Hm|Hm].
  - apply Z.quot_div_nonneg; lia.
  - rewrite <- (Z.opp_involutive m) at 1.
    rewrite Z.quot_opp_l by lia. f_equal.
    apply Z.quot_div_nonneg; lia.
Qed.

Lemma sign_comp (x y : Q) :
  (x == y)%Q -> (0 <=? Qnum x) = (0 <=? Qnum y).
Proof.
  unfold Qeq. intros Hxy.
  destruct (Z.leb_spec 0 (Qnum x)), (Z.leb_spec 0 (Qnum y)); try done; nia.
Qed.

Lemma py_int_comp (x y : Q) : (x == y)%Q -> py_int x = py_int y.
Proof.
  intros Hxy. rewrite !py_int_floor, (sign_comp x y Hxy).
  rewrite (Qfloor_comp x y Hxy).
  by rewrite (Qfloor_comp (- x) (- y)) by (by rewrite Hxy).
Qed.

Lemma differs_from_int_comp (x y : Q) :
  (x == y)%Q -> differs_from_int x = differs_from_int y.
Proof.
  intros Hxy. unfold differs_from_int. f_equal.
  rewrite (py_int_comp x y Hxy).
  apply Bool.eq_iff_eq_true. rewrite !Qeq_bool_iff. by rewrite Hxy.
Qed.

Lemma round_half_even_comp (p q : Q) :
  (p == q)%Q -> round_half_even p = round_half_even q.
Proof.
  intros Hpq. unfold round_half_even.
  rewrite (Qfloor_comp p q Hpq). cbv zeta.
  assert (Hcmp : (p - inject_Z (Qfloor q) ?= 1 # 2)%Q
                 = (q - inject_Z (Qfloor q) ?= 1 # 2)%Q)
    by (apply Qcompare_comp; [by rewrite Hpq | reflexivity]).
  by rewrite Hcmp.
Qed.

Lemma format_2f_comp (x y : Q) : (x == y)%Q -> format_2f x = format_2f y.
Proof.
  intros Hxy. unfold format_2f.
  rewrite (round_half_even_comp (Qabs x * 100) (Qabs y * 100))
    by (by rewrite Hxy).
  assert (Hcmp : (x ?= 0)%Q = (y ?= 0)%Q)
    by (apply Qcompare_comp; [done | reflexivity]).
  by rewrite Hcmp.
Qed.

(** X13.  How a term is shown depends on its value only: two terms that
    are equal as numbers, such as 1/2 and 2/4, are shown by the same text,
    in the one-line display and in the table. *)
Theorem display_by_value (x y : Q) :
  (x == y)%Q ->
  formatted_term x = formatted_term y
  /\ sequence_str_item x = sequence_str_item y.
Proof.
  intros Hxy. unfold formatted_term, sequence_str_item.
  rewrite (differs_from_int_comp x y Hxy), (format_2f_comp x y Hxy),
    (py_int_comp x y Hxy).
  done.
Qed.

Lemma display_by_value_witness :
  (1 # 2 == 2 # 4)%Q
  /\ formatted_term (1 # 2) = formatted_term (2 # 4)
  /\ sequence_str_item (1 # 2) = sequence_str_item (2 # 4).
Proof.
  split; [reflexivity|].
  exact (display_by_value (1 # 2) (2 # 4) eq_refl).
Defined.

(** ** Two decimals: the nearest hundredth *)

Lemma round_half_even_near (q : Q) :
  (Qabs (inject_Z (round_half_even q) - q) <= 1 # 2)%Q
  /\ ((q - inject_Z (Qfloor q) == 1 # 2)%Q ->
      Z.even (round_half_even q) = true).
Proof.
  unfold round_half_even. cbv zeta.
  pose proof (Qfloor_le q) as Hlo. pose proof (Qlt_floor q) as Hhi.
  rewrite inject_Z_plus in Hhi. change (inject_Z 1) with 1%Q in Hhi.
  destruct (Qcompare_spec (q - inject_Z (Qfloor q)) (1 # 2)) as [He|Hl|Hg].
  - split.
    + apply Qabs_Qle_condition.
      destruct (Z.even (Qfloor q)); [|rewrite inject_Z_plus;
        change (inject_Z 1) with 1%Q]; split; lra.
    + intros _. destruct (Z.even (Qfloor q)) eqn:Heven; [done|].
      rewrite Z.add_1_r, Z.even_succ, <- Z.negb_even. by rewrite Heven.
  - split; [apply Qabs_Qle_condition; split; lra | intros; lra].
  - split; [|intros; lra]. apply Qabs_Qle_condition.
    rewrite inject_Z_plus. change (inject_Z 1) with 1%Q. split; lra.
Qed.

Lemma round_half_even_nonneg (q : Q) :
  (0 <= q)%Q -> 0 <= round_half_even q.
Proof.
  intros Hq. unfold round_half_even. cbv zeta.
  pose proof (Qfloor_resp_le 0 q Hq) as Hf. change (Qfloor 0) with 0 in Hf.
  destruct (_ ?= _)%Q; [destruct (Z.even _)|..]; lia.
Qed.

Lemma Qfloor_unique (x : Q) (m : Z) :
  (inject_Z m <= x)%Q -> (x < inject_Z m + 1)%Q -> Qfloor x = m.
Proof.
  intros Hlo Hhi.
  pose proof (Qfloor_le x) as Hf. pose proof (Qlt_floor x) as Hf'.
  rewrite inject_Z_plus in Hf'. change (inject_Z 1) with 1%Q in Hf'.
  assert (H1 : (inject_Z (Qfloor x) < inject_Z (m + 1))%Q)
    by (rewrite inject_Z_plus; change (inject_Z 1) with 1%Q; lra).
  assert (H2 : (inject_Z m < inject_Z (Qfloor x + 1))%Q)
    by (rewrite inject_Z_plus; change (inject_Z 1) with 1%Q; lra).
  rewrite <- Zlt_Qlt in H1, H2. lia.
Qed.

Lemma Qnum_positive (x : Q) : (0 < x)%Q -> 0 < Qnum x.
Proof. destruct x as [m den]. unfold Qlt. simpl. lia. Qed.

(** X15.  A term slightly above a whole number is not shown like that
    whole number: for a whole number [m >= 0] and an excess below 0.005,
    the term [m + excess] is shown as the digits of [m] followed by
    [.00], while [m] itself is shown without decimals. *)
Theorem near_whole_shows_decimals (m : Z) (excess : Q) :
  0 <= m -> (0 < excess)%Q -> (excess < 1 # 200)%Q ->
  formatted_term (inject_Z m + excess) = (str_int m ++ ".00")%string
  /\ formatted_term (inject_Z m) = str_int m.
Proof.
  intros Hm Hpos Hsmall. split; [|apply formatted_whole].
  set (x := (inject_Z m + excess)%Q).
  assert (Hm' : (0 <= inject_Z m)%Q)
    by (change 0%Q with (inject_Z 0); by rewrite <- Zle_Qle).
  assert (Hx : (0 < x)%Q) by (subst x; lra).
  assert (Hfloor : Qfloor x = m) by (apply Qfloor_unique; subst x; lra).
  assert (Hint : py_int x = m).
  { rewrite py_int_floor.
    destruct (Z.leb_spec 0 (Qnum x)) as [_|Hneg]; [done|].
    apply Qnum_positive in Hx. lia. }
  unfold formatted_term, differs_from_int. rewrite Hint.
  destruct (Qeq_bool x (inject_Z m)) eqn:Heq.
  { apply Qeq_bool_iff in Heq. subst x. lra. }
  cbn [negb]. unfold format_2f. cbv zeta.
  rewrite (round_half_even_comp (Qabs x * 100) (inject_Z (m * 100) + excess * 100))
    by (rewrite Qabs_pos, inject_Z_mult by lra;
        change (inject_Z 100) with 100%Q; subst x; ring).
  assert (Hround : round_half_even (inject_Z (m * 100) + excess * 100)
                   = m * 100).
  { unfold round_half_even. cbv zeta.
    rewrite (Qfloor_unique _ (m * 100)) by lra.
    assert (Hlt : (inject_Z (m * 100) + excess * 100 - inject_Z (m * 100)
                   < 1 # 2)%Q) by lra.
    apply (proj1 (Qlt_alt _ _)) in Hlt. by rewrite Hlt. }
  rewrite Hround.
  apply (proj1 (Qgt_alt x 0)) in Hx. rewrite Hx.
  assert (H100 : m * 100 / 100 = m) by (apply Z.div_mul; lia).
  assert (H10 : m * 100 / 10 = m * 10)
    by (replace (m * 100) with (m * 10 * 10) by lia; apply Z.div_mul; lia).
  assert (Hunits : (m * 100) mod 10 = 0)
    by (replace (m * 100) with (m * 10 * 10) by lia; apply Z.mod_mul; lia).
  rewrite H100, H10, Hunits, Z.mod_mul by lia. reflexivity.
Qed.

Lemma near_whole_shows_decimals_witness :
  0 <= 1 /\ (0 < 1 # 1000)%Q /\ (1 # 1000 < 1 # 200)%Q
  /\ formatted_term (inject_Z 1 + (1 # 1000)) = (str_int 1 ++ ".00")%string
  /\ formatted_term (inject_Z 1) = str_int 1.
Proof.
  split; [lia|]. split; [reflexivity|]. split; [reflexivity|].
  exact (near_whole_shows_decimals 1 (1 # 1000)
           ltac:(lia) eq_refl eq_refl).
Defined.

(** X16.  In exact rational arithmetic the average is the mean of the
    first and the last term, and it lies within the range: not below the
    least and not above the greatest term.  (In binary64 the rounded
    average can leave the range: 0.015 nine times has average 0.02 beside
    the range 0.01 to 0.01.) *)
Theorem average_within_range (a d : Q) (n : Z) :
  1 <= n ->
  exists p,
    sequence_properties d n (generate_arithmetic_sequence a d n) = Returns p
    /\ (average p == (a + (a + inject_Z (n - 1) * d)) / 2)%Q
    /\ (range_min p <= average p)%Q
    /\ (average p <= range_max p)%Q.
Proof.
  intros Hn.
  pose proof (generate_nonempty a d n Hn) as Hne.
  destruct (sequence_properties_returns d n _ ltac:(lia) Hne)
    as (lo & hi & Hlo & Hhi & Hp).
  destruct (py_min_spec _ Hne) as (lo' & Hlo' & _ & Hlo_le).
  destruct (py_max_spec _ Hne) as (hi' & Hhi' & _ & Hhi_le).
  rewrite Hlo in Hlo'. injection Hlo' as <-.
  rewrite Hhi in Hhi'. injection Hhi' as <-.
  destruct (generate_ends a d n Hn) as (x & y & Hx & Hxa & Hy & Hyb).
  pose proof (Hlo_le x Hx) as Hlox. pose proof (Hlo_le y Hy) as Hloy.
  pose proof (Hhi_le x Hx) as Hhix. pose proof (Hhi_le y Hy) as Hhiy.
  assert (Havg : (py_sum (generate_arithmetic_sequence a d n) / inject_Z n
                  == (a + (a + inject_Z (n - 1) * d)) / 2)%Q).
  { rewrite <- (Z2Nat.id n) at 1 by lia.
    rewrite py_sum_generate, Z2Nat.id by lia.
    unfold Z.sub. rewrite inject_Z_plus, inject_Z_opp.
    change (inject_Z 1) with 1%Q.
    field. intros H0. unfold Qeq in H0. simpl in H0. lia. }
  eexists. split; [exact Hp|].
  cbn [average range_min range_max].
  split; [exact Havg|]. rewrite Havg.
  unfold Qdiv. change (/ 2)%Q with (1 # 2)%Q.
  split; lra.
Qed.

Lemma average_within_range_witness :
  1 <= 10 /\
  exists p,
    sequence_properties 2 10 (generate_arithmetic_sequence 2%Q 2%Q 10)
    = Returns p
    /\ (average p == (2 + (2 + inject_Z (10 - 1) * 2)) / 2)%Q
    /\ (range_min p <= average p)%Q
    /\ (average p <= range_max p)%Q.
Proof. split; [lia|]. apply (average_within_range 2 2 10). lia. Defined.

(** ** The display of a term, in full *)

Lemma round_half_even_tie (q : Q) :
  (Qabs (inject_Z (round_half_even q) - q) == 1 # 2)%Q ->
  Z.even (round_half_even q) = true.
Proof.
  intros Htie. apply round_half_even_near.
  revert Htie. unfold round_half_even. cbv zeta.
  pose proof (Qfloor_le q) as Hlo. pose proof (Qlt_floor q) as Hhi.
  rewrite inject_Z_plus in Hhi. change (inject_Z 1) with 1%Q in Hhi.
  destruct (Qcompare_spec (q - inject_Z (Qfloor q)) (1 # 2)) as [He|Hl|Hg];
    [done|..]; intros Htie.
  - rewrite Qabs_neg in Htie by lra. lra.
  - rewrite inject_Z_plus in Htie. change (inject_Z 1) with 1%Q in Htie.
    rewrite Qabs_pos in Htie by lra. lra.
Qed.

Lemma py_int_whole (z : Z) : py_int (inject_Z z) = z.
Proof. unfold py_int. simpl. apply Z.quot_1_r. Qed.

Lemma formatted_term_comp (x y : Q) :
  (x == y)%Q -> formatted_term x = formatted_term y.
Proof.
  intros Hxy. unfold formatted_term.
  by rewrite (differs_from_int_comp x y Hxy), (format_2f_comp x y Hxy),
    (py_int_comp x y Hxy).
Qed.

Lemma whole_iff (term : Q) :
  differs_from_int term = false <-> exists z : Z, (term == inject_Z z)%Q.
Proof.
  split.
  - intros Hd%differs_from_int_false. by exists (py_int term).
  - intros [z Hz]. apply differs_from_int_false.
    by rewrite (py_int_comp term (inject_Z z) Hz), py_int_whole.
Qed.

(** The two-decimals text written with the digits of the rounded count of
    hundredths. *)
Lemma format_2f_digits (x : Q) :
  format_2f x
  = ((if Qlt_le_dec x 0 then "-" else "")
     ++ NilZero.string_of_int
          (Z.to_int (round_half_even (Qabs x * 100) / 100))
     ++ "."
     ++ String
          (ascii_of_nat
             (48 + Z.to_nat (round_half_even (Qabs x * 100) / 10 mod 10)))
          (String
             (ascii_of_nat
                (48 + Z.to_nat (round_half_even (Qabs x * 100) mod 10)))
             ""))%string.
Proof.
  unfold format_2f. cbv zeta. f_equal.
  destruct (Qlt_le_dec x 0) as [Hneg|Hpos].
  - apply (proj1 (Qlt_alt x 0)) in Hneg. by rewrite Hneg.
  - apply (proj1 (Qge_alt x 0)) in Hpos. by destruct (x ?= 0)%Q.
Qed.

(** C7.  A term that is a whole number (equal to its own truncation) is
    shown by the decimal digits of that whole number, with a minus sign
    when negative and without a point.  Any other term is shown with
    exactly two decimals: a minus sign when negative, the digits of
    [s / 100], a point and the two digits of [s mod 100], where [s] is the
    whole number nearest to one hundred times the absolute value (the even
    one of the two when it lies halfway).  5 is shown as [5] and 5.25 as
    [5.25], also as binary64 numbers, and every finite binary64 term is
    shown as its value is.  The one-line display and the cells
    of the table use this same rendering: the line joins the renderings of
    the terms, and the cell of the term at index [k] carries the label
    [k + 1] and the rendering of that term (the line is shown for at most
    20 terms, the table otherwise). *)
Theorem term_display (term : Q) :
  ((term == inject_Z (py_int term))%Q
   <-> exists z : Z, (term == inject_Z z)%Q)
  /\ (forall z : Z,
         (term == inject_Z z)%Q ->
         formatted_term term = NilZero.string_of_int (Z.to_int z)
         /\ has_char "." (formatted_term term) = false)
  /\ ((forall z : Z, ~ (term == inject_Z z)%Q) ->
      exists (s : Z) (whole : string) (d1 d2 : ascii),
        0 <= s
        /\ (Qabs (inject_Z s - Qabs term * 100) <= 1 # 2)%Q
        /\ ((Qabs (inject_Z s - Qabs term * 100) == 1 # 2)%Q ->
            Z.even s = true)
        /\ whole
           = ((if Qlt_le_dec term 0 then "-" else "")
              ++ NilZero.string_of_int (Z.to_int (s / 100)))%string
        /\ d1 = ascii_of_nat (48 + Z.to_nat (s / 10 mod 10))
        /\ d2 = ascii_of_nat (48 + Z.to_nat (s mod 10))
        /\ formatted_term term
           = (whole ++ "." ++ String d1 (String d2 ""))%string
        /\ has_char "." whole = false
        /\ is_digit d1 = true /\ is_digit d2 = true)
  /\ formatted_term (5 # 1) = "5"%string
  /\ formatted_term (21 # 4) = "5.25"%string
  /\ Program.formatted_term (Binary64.literal 5 1) = Returns "5"%string
  /\ Program.formatted_term (Binary64.literal 525 100)
     = Returns "5.25"%string
  /\ (forall x : spec_float,
         finite (Binary64.value x) = true ->
         Program.formatted_term x = Returns (formatted_term (worth x)))
  /\ sequence_str_item term = formatted_term term
  /\ (forall sequence : list Q,
         sequence_str sequence
         = String.concat ", " (map formatted_term sequence))
  /\ (forall (num_terms : Z) (sequence : list Q),
         generated_sequence_display num_terms sequence
         = if num_terms <=? 20
           then Code (String.concat ", " (map formatted_term sequence))
           else Metrics (table num_terms sequence))
  /\ (forall (num_terms : Z) (sequence : list Q) (k : nat),
         Z.of_nat k < num_terms ->
         sequence !! k = Some term ->
         exists cells,
           table num_terms sequence !! (k / 10)%nat = Some cells
           /\ cells !! (k mod 10)%nat
              = Some (Z.of_nat k + 1, formatted_term term)).
Proof.
  split; [|split; [|split]].
  - rewrite <- whole_iff. apply differs_from_int_false.
  - intros z Hz.
    rewrite (formatted_term_comp term (inject_Z z) Hz).
    change (inject_Z z) with (z # 1). rewrite formatted_whole.
    split; [reflexivity|]. by apply str_int_lacks.
  - intros Hfrac.
    assert (Hd : differs_from_int term = true).
    { destruct (differs_from_int term) eqn:Hd; [done|].
      apply whole_iff in Hd as [z Hz]. by destruct (Hfrac z). }
    destruct (round_half_even_near (Qabs term * 100)) as [Hnear _].
    exists (round_half_even (Qabs term * 100)).
    do 3 eexists.
    split. { apply round_half_even_nonneg. pose proof (Qabs_nonneg term). lra. }
    split; [exact Hnear|]. split; [apply round_half_even_tie|].
    split; [reflexivity|]. split; [reflexivity|]. split; [reflexivity|].
    split.
    { unfold formatted_term. rewrite Hd, format_2f_digits.
      by rewrite string_app_assoc. }
    split.
    { rewrite has_char_app.
      pose proof (str_int_lacks "."
                    (round_half_even (Qabs term * 100) / 100)
                    eq_refl ltac:(done)) as Hlack.
      unfold str_int in Hlack. rewrite Hlack.
      by destruct (Qlt_le_dec term 0). }
    split; apply (digit_is_digit _ (Z.mod_pos_bound _ 10 ltac:(lia))).
  - split; [reflexivity|]. split; [reflexivity|].
    split; [reflexivity|]. split; [reflexivity|].
    split.
    { intros x Hx. unfold Program.formatted_term, worth.
      cbn [value_of Arithmetic_binary64] in *.
      by destruct (Binary64.value x). }
    split; [reflexivity|]. split; [reflexivity|]. split; [reflexivity|].
    intros num_terms sequence k. apply table_cell.
Qed.

Lemma term_display_witness :
  ((5 # 1 == inject_Z 5)%Q
   /\ formatted_term (5 # 1) = NilZero.string_of_int (Z.to_int 5))
  /\ ((forall z : Z, ~ (21 # 4 == inject_Z z)%Q)
      /\ exists s : Z,
           (Qabs (inject_Z s - Qabs (21 # 4) * 100) <= 1 # 2)%Q)
  /\ (exists cells,
         table 25 (generate_arithmetic_sequence (21 # 4) (1 # 1) 25)
         !! (0 / 10)%nat = Some cells
         /\ cells !! (0 mod 10)%nat
            = Some (Z.of_nat 0 + 1, formatted_term (21 # 4))).
Proof.
  split; [|split].
  - split; [reflexivity|].
    apply (proj1 (proj2 (term_display (5 # 1))) 5). reflexivity.
  - assert (Hfrac : forall z : Z, ~ (21 # 4 == inject_Z z)%Q).
    { intros z Hz. unfold Qeq in Hz. simpl in Hz. lia. }
    split; [exact Hfrac|].
    destruct (proj1 (proj2 (proj2 (term_display (21 # 4)))) Hfrac)
      as (s & _ & _ & _ & _ & Hnear & _).
    by exists s.
  - apply (proj2 (proj2 (proj2 (proj2 (proj2 (proj2 (proj2 (proj2
             (proj2 (proj2 (proj2 (term_display (21 # 4)))))))))))) 25 _
             0%nat);
      [lia | reflexivity].
Defined.

(** ** The export keeps the terms *)



Section ExportKeeps.
Context {num : Type} (str_term : num -> string).
Hypothesis str_term_unbroken :
  forall term, has_char line_feed (str_term term) = false.
Hypothesis str_term_inj : forall x y, str_term x = str_term y -> x = y.




End ExportKeeps.



Example export_sample :
  sequence_text str_int (generate_arithmetic_sequence 2 3 3)
  = ("Term 1: 2" ++ newline ++ "Term 2: 5" ++ newline ++ "Term 3: 8")%string.
Proof. reflexivity. Qed.

(** ** The results block over any arithmetic *)

Section Comprehension.
Context {A B : Type} (f : A -> outcome B).




End Comprehension.

Section ProgramFacts.
Context {num : Type} `{Arithmetic num}.
Implicit Types (sequence : list num) (term : num).
















End ProgramFacts.



Example results_overflow :
  Program.on_generate Binary64.str
    (Binary64.of_Z (10 ^ 308)) (Binary64.of_Z (10 ^ 308)) 3
  = Program.ErrorShown OverflowError.
Proof. vm_compute. reflexivity. Qed.

(** X10.  With a term count of zero or less the block stops at the "Last
    Term" metric: indexing the empty list raises [IndexError], which the
    [except] clause turns into the error message; no result is shown and
    the division by the term count is never reached. *)
Theorem results_error {num} `{Arithmetic num} (str_term : num -> string)
    (a d : num) (n : Z) :
  n <= 0 ->
  Program.generate_results str_term a d n = Raises IndexError
  /\ Program.on_generate str_term a d n = Program.ErrorShown IndexError.
Proof.
  intros Hn. unfold Program.on_generate, Program.generate_results.
  by rewrite generate_nonpositive.
Qed.

Lemma results_error_witness :
  0 <= 0
  /\ Program.generate_results Binary64.str
       (Binary64.of_Z 0) (Binary64.of_Z 0) 0 = Raises IndexError
  /\ Program.on_generate Binary64.str
       (Binary64.of_Z 0) (Binary64.of_Z 0) 0
     = Program.ErrorShown IndexError.
Proof.
  split; [lia|].
  apply (results_error Binary64.str (Binary64.of_Z 0) (Binary64.of_Z 0) 0).
  lia.
Defined.

(** ** Sums and averages in binary64 *)


(** The same lists in the two arithmetics: what the exact statements
    about order, sum and whole numbers can miss in binary64. *)

Example binary64_label_and_terms :
  Program.is_increasing (Binary64.literal 1 2) = "Yes"%string
  /\ map Binary64.str
       (generate_arithmetic_sequence
          (Binary64.of_Z (10 ^ 16)) (Binary64.literal 1 2) 3)
     = ["1e+16"; "1e+16"; "1e+16"]%string.
Proof. split; vm_compute; reflexivity. Qed.

Example binary64_sum_of_tenths :
  Binary64.str
    (Program.py_sum
       (generate_arithmetic_sequence
          (Binary64.literal 1 10) (Binary64.literal 1 10) 10))
  = "5.500000000000001"%string
  /\ map Binary64.str
       (generate_arithmetic_sequence
          (Binary64.literal 1 10) (Binary64.literal 1 10) 3)
     = ["0.1"; "0.2"; "0.30000000000000004"]%string.
Proof. split; vm_compute; reflexivity. Qed.

Example binary64_whole_numbers :
  comprehension Program.formatted_term
    (generate_arithmetic_sequence
       (Binary64.of_Z (2 ^ 53)) (Binary64.of_Z 1) 3)
  = Returns ["9007199254740992"; "9007199254740992"; "9007199254740994"]
      %string.
Proof. vm_compute. reflexivity. Qed.

(** ** The exact definitions are the program over the rationals *)

Lemma exact_formatted_term (term : Q) :
  Program.formatted_term term = Returns (formatted_term term).
Proof. reflexivity. Qed.

Lemma exact_min_loop (rest : list Q) :
  forall m0 : Q,
    foldl (fun m y => if less y m then y else m) m0 rest
    = foldl (fun m y => if Qlt_le_dec y m then y else m) m0 rest.
Proof.
  induction rest as [|y rest IH]; intros m0; [done|]. simpl.
  rewrite IH. by destruct (Qlt_le_dec y m0).
Qed.

Lemma exact_max_loop (rest : list Q) :
  forall m0 : Q,
    foldl (fun m y => if less m y then y else m) m0 rest
    = foldl (fun m y => if Qlt_le_dec m y then y else m) m0 rest.
Proof.
  induction rest as [|y rest IH]; intros m0; [done|]. simpl.
  rewrite IH. by destruct (Qlt_le_dec m0 y).
Qed.

Lemma exact_is_increasing (d : Q) :
  Program.is_increasing d = is_increasing d.
Proof.
  unfold Program.is_increasing, is_increasing. simpl.
  change (inject_Z 0) with 0%Q.
  by destruct (Qlt_le_dec 0 d), (Qlt_le_dec d 0).
Qed.

Lemma exact_sequence_properties (d : Q) (n : Z) (sequence : list Q) :
  Program.sequence_properties d n sequence
  = obind (sequence_properties d n sequence) (fun p =>
    Returns {| Program.sequence_sum := sequence_sum p;
               Program.average := average p;
               Program.range_min := range_min p;
               Program.range_max := range_max p;
               Program.increasing_label := increasing_label p |}).
Proof.
  unfold Program.sequence_properties, sequence_properties,
    Program.py_div, py_div.
  destruct (n =? 0); [done|]. cbn [obind].
  destruct sequence as [|x rest]; [done|].
  cbn [Program.py_min Program.py_max py_min py_max obind].
  cbn [sequence_sum average range_min range_max increasing_label].
  by rewrite exact_min_loop, exact_max_loop, exact_is_increasing.
Qed.
